(** * Release timeline generator: bars, rows and the running end-of-life date

    A shallow embedding of [timeline.py]: the per-version bar construction of
    [generate_timeline], the row pairing of [print_row], the ordering given by
    [version_key], and the two passes run by [main].

    Python dictionaries are finite maps ([gmap]) keyed by strings, exceptions
    are an explicit error result, and the loop over the sorted versions is a
    left fold threading [max_eol] and [all_rows]. *)

From Stdlib Require Import ZArith Ascii String.
From stdpp Require Import gmap strings list sorting.

Local Open Scope string_scope.
Local Open Scope list_scope.
Local Open Scope Z_scope.

(** ** Exceptions *)

Inductive exn : Type :=
| KeyError (key : string)
| ValueError
| AssertionError
| IndexError.

Inductive result (A : Type) : Type :=
| Ok (a : A)
| Raise (e : exn).

Arguments Ok {A} a.
Arguments Raise {A} e.

Definition bind {A B : Type} (r : result A) (k : A → result B) : result B :=
  match r with
  | Ok a => k a
  | Raise e => Raise e
  end.

Notation "'let*' x ':=' r 'in' k" := (bind r (fun x => k))
  (at level 10, x name, r at level 100, k at level 200).

Definition raises {A : Type} (r : result A) : Prop := ∃ e, r = Raise e.

Fixpoint mapM {A B : Type} (f : A → result B) (l : list A) : result (list B) :=
  match l with
  | [] => Ok []
  | x :: l' => let* y := f x in let* ys := mapM f l' in Ok (y :: ys)
  end.

(** ** Calendar dates

    [datetime.date] values: compared field by field, year first. *)

Record date : Type := Date { year : Z; month : Z; day : Z }.

#[global] Instance date_eq_dec : EqDecision date.
Proof. solve_decision. Defined.

Definition date_cmp (a b : date) : comparison :=
  match year a ?= year b with
  | Eq => match month a ?= month b with
          | Eq => day a ?= day b
          | c => c
          end
  | c => c
  end.

(** [a < b], [a <= b], [a > b], [a != b] on dates. *)
Definition date_lt (a b : date) : bool :=
  match date_cmp a b with Lt => true | _ => false end.
Definition date_le (a b : date) : bool :=
  match date_cmp a b with Gt => false | _ => true end.
Definition date_gt (a b : date) : bool :=
  match date_cmp a b with Gt => true | _ => false end.
Definition date_ne (a b : date) : bool :=
  match date_cmp a b with Eq => false | _ => true end.

(** The builtin [max(a, b)]: keeps [a] unless [b > a]. *)
Definition py_max (a b : date) : date := if date_gt b a then b else a.

(** A version record of the input: milestone name to date. The input
    itself maps a source key ("upstream" among them) to the records of its
    versions. *)
Abbreviation version_record := (gmap string date).
Abbreviation catalog := (gmap string (gmap string version_record)).

(** [jsdate]: the three numbers interpolated into [new Date(...)]. *)
Definition jsdate (dt : date) : Z * Z * Z := (year dt, month dt - 1, day dt).

(** ** Version keys *)

(** [str.split(".")]. *)
Fixpoint split_on (sep : ascii) (s : string) : list string :=
  match s with
  | EmptyString => [EmptyString]
  | String c rest =>
      if Ascii.eqb c sep then EmptyString :: split_on sep rest
      else match split_on sep rest with
           | [] => [String c EmptyString]
           | h :: t => String c h :: t
           end
  end.

(** The white space [int] skips in an ASCII string: tab to carriage return,
    and the blank. *)
Definition is_space (c : ascii) : bool :=
  let n := N_of_ascii c in
  (N.leb 9 n && N.leb n 13) || N.eqb n 32.

Fixpoint lstrip (s : string) : string :=
  match s with
  | String c rest => if is_space c then lstrip rest else s
  | EmptyString => EmptyString
  end.

Definition strip (s : string) : string :=
  String.rev (lstrip (String.rev (lstrip s))).

(** The value of an ASCII decimal digit. *)
Definition digit_of (c : ascii) : option Z :=
  let n := N_of_ascii c in
  if N.leb 48 n && N.leb n 57 then Some (Z.of_N n - 48) else None.

(** The default of [sys.int_info.default_max_str_digits]. *)
Definition max_str_digits : Z := 4300.

(** The digit scan of [int]: decimal digits, a single underscore allowed
    between two digits. Returns the value and the number of digits. *)
Fixpoint scan_digits (prev_us : bool) (acc n : Z) (s : string) : option (Z * Z) :=
  match s with
  | EmptyString => if prev_us then None else Some (acc, n)
  | String c rest =>
      if Ascii.eqb c "_" then
        if prev_us then None else scan_digits true acc n rest
      else
        match digit_of c with
        | Some d => scan_digits false (10 * acc + d) (n + 1) rest
        | None => None
        end
  end.

Definition int_magnitude (s : string) : option Z :=
  match s with
  | EmptyString => None
  | String c _ =>
      if Ascii.eqb c "_" then None
      else match scan_digits false 0 0 s with
           | Some (v, n) => if n <=? max_str_digits then Some v else None
           | None => None
           end
  end.

(** [int(x)] for a string [x] of ASCII characters (every byte below 128):
    surrounding white space, an optional sign, then the digits. On a string
    with other characters [int] also takes Unicode decimal digits and white
    space, which this definition does not: it is the conversion of the code
    on ASCII strings only, see [is_ascii]. *)
Definition py_int (x : string) : result Z :=
  let body := strip x in
  let '(neg, digits) :=
    match body with
    | String c rest =>
        if Ascii.eqb c "-" then (true, rest)
        else if Ascii.eqb c "+" then (false, rest)
        else (false, body)
    | EmptyString => (false, body)
    end in
  match int_magnitude digits with
  | Some v => Ok (if neg then - v else v)
  | None => Raise ValueError
  end.

(** [version_key]: [tuple(int(x) for x in version.split("."))]. *)
Definition version_key (version : string) : result (list Z) :=
  mapM py_int (split_on "." version).

(** [a < b] on tuples of integers: the first differing component decides,
    a proper prefix is smaller. *)
Fixpoint tuple_lt (a b : list Z) : bool :=
  match a, b with
  | [], [] => false
  | [], _ :: _ => true
  | _ :: _, [] => false
  | x :: a', y :: b' => if x =? y then tuple_lt a' b' else x <? y
  end.

(** [sorted(versions, key=version_key)]: every key is computed first, then
    the items are sorted stably by [<] on their keys. *)
Fixpoint insert_keyed (x : list Z * string) (l : list (list Z * string))
  : list (list Z * string) :=
  match l with
  | [] => [x]
  | y :: l' => if tuple_lt y.1 x.1 then y :: insert_keyed x l' else x :: y :: l'
  end.

Definition sort_keyed (l : list (list Z * string)) : list (list Z * string) :=
  foldr insert_keyed [] l.

Definition decorate (version : string) : result (list Z * string) :=
  let* k := version_key version in Ok (k, version).

Definition sorted_versions (versions : list string) : result (list string) :=
  let* keyed := mapM decorate versions in Ok ((sort_keyed keyed).*2).

(** ** Bars and rows *)

(** A bar is a [(label, start_date)] pair. *)
Abbreviation bar := (string * date)%type.

(** One printed line of [print_row]: the row label, the label of the
    previous bar, and the two dates handed to [jsdate]. *)
Record row : Type := Row {
  row_label : string;
  row_state : string;
  row_start : date;
  row_end : date
}.

#[global] Instance row_eq_dec : EqDecision row.
Proof. solve_decision. Defined.

(** The text cells of a printed row. *)
Definition row_cells (r : row) : string * string * (Z * Z * Z) * (Z * Z * Z) :=
  (row_label r, row_state r, jsdate (row_start r), jsdate (row_end r)).

(** The loop of [print_row], started with [prev]. *)
Fixpoint print_row_from (row_label : string) (prev : option bar) (bars : list bar)
  : list row :=
  match bars with
  | [] => []
  | (label, start_date) :: rest =>
      match prev with
      | Some p => [Row row_label p.1 p.2 start_date]
      | None => []
      end ++ print_row_from row_label (Some (label, start_date)) rest
  end.

Definition print_row (row_label : string) (bars : list bar) : list row :=
  print_row_from row_label None bars.

(** ** One version *)

(** [vdata[key]]. *)
Definition getitem (vdata : version_record) (key : string) : result date :=
  match vdata !! key with
  | Some d => Ok d
  | None => Raise (KeyError key)
  end.

(** [not eol and "eol" in vdata and vdata["eol"] <= datetime.date.today()]. *)
Definition skip_version (eol : bool) (today : date) (vdata : version_record) : bool :=
  negb eol &&
  match vdata !! "eol" with
  | Some e => date_le e today
  | None => false
  end.

Definition alpha_label : string := "α".
Definition beta_label : string := "β".

(** The body of the version loop for a record [vdata]: [None] when the
    version is skipped by [continue], otherwise the bars and the new value of
    [max_eol]. *)
Definition version_bars (eol : bool) (today : date) (vdata : version_record)
    (max_eol : option date) : result (option (list bar * option date)) :=
  let bars : list bar := [] in
  if skip_version eol today vdata then Ok None else
  let bars :=
    match vdata !! "dev" with
    | Some d => bars ++ [("dev", d)]
    | None => bars
    end in
  let* a := getitem vdata "alpha1" in
  let* b := getitem vdata "beta1" in
  let* r := getitem vdata "rc1" in
  let* f := getitem vdata "final" in
  let bars := bars ++ [(alpha_label, a); (beta_label, b); ("rc", r); ("stable", f)] in
  let bars :=
    match vdata !! "last-bugfix" with
    | Some d => bars ++ [("security", d)]
    | None => bars
    end in
  let* bars :=
    match vdata !! "eol" with
    | Some e =>
        let* lb := getitem vdata "last-bugfix" in
        Ok (if date_ne e lb then bars ++ [("eol", e)] else bars)
    | None => Ok bars
    end in
  match vdata !! "eol" with
  | Some _ =>
      match last bars with
      | None => Raise IndexError
      | Some lastbar =>
          match max_eol with
          | None => Ok (Some (bars, Some lastbar.2))
          | Some m => Ok (Some (bars, Some (py_max m lastbar.2)))
          end
      end
  | None =>
      match max_eol with
      | None => Raise AssertionError
      | Some m => Ok (Some (bars ++ [("future", m)], max_eol))
      end
  end.

(** ** One pass *)

(** The variables the version loop updates: [max_eol] and the
    [defaultdict(list)] called [all_rows]. *)
Record pass_state : Type := PassState {
  max_eol : option date;
  all_rows : gmap string (list (string * list bar))
}.

Definition initial_state : pass_state := PassState None ∅.

(** [data.get("upstream", {})]. *)
Definition upstream (data : catalog)
  : gmap string version_record :=
  default ∅ (data !! "upstream").

Definition loop_body (eol : bool) (today : date)
    (data : catalog)
    (st : pass_state) (version : string) : result pass_state :=
  match upstream data !! version with
  | None => Ok st
  | Some vdata =>
      let* r := version_bars eol today vdata (max_eol st) in
      match r with
      | None => Ok st
      | Some (bars, m) =>
          Ok (PassState m
                (<[version := default [] (all_rows st !! version) ++ [(version, bars)]]>
                   (all_rows st)))
      end
  end.

Fixpoint first_loop (eol : bool) (today : date)
    (data : catalog)
    (st : pass_state) (order : list string) : result pass_state :=
  match order with
  | [] => Ok st
  | version :: rest =>
      let* st' := loop_body eol today data st version in
      first_loop eol today data st' rest
  end.

(** The rows printed for one version by the second loop. *)
Definition version_rows (rows : gmap string (list (string * list bar)))
    (version : string) : list row :=
  flat_map (fun lb => print_row lb.1 lb.2) (default [] (rows !! version)).

Definition second_loop (rows : gmap string (list (string * list bar)))
    (order : list string) : list row :=
  flat_map (version_rows rows) order.

(** [frozenset(itertools.chain.from_iterable(data.values()))]: the version
    strings of every table. *)
Definition all_versions (data : catalog)
  : gset string :=
  ⋃ ((fun kv => dom kv.2) <$> map_to_list data).

(** The order in which a frozenset yields its elements is not specified:
    [versions] is any sequence that lists each of them once. *)
Definition frozenset_order (data : catalog)
    (versions : list string) : Prop :=
  versions ≡ₚ elements (all_versions data).

(** [generate_timeline]: the rows written between prologue and epilogue.
    [versions] is the iteration order of the frozenset and [today] the value
    of [datetime.date.today()], one date for the whole run. An exception leaves no row printed, as rows
    are written by the second loop only. *)
Definition generate_timeline (versions : list string) (today : date)
    (data : catalog) (eol : bool)
  : result (list row) :=
  let* order := sorted_versions versions in
  let* st := first_loop eol today data initial_state order in
  let* order' := sorted_versions versions in
  Ok (second_loop (all_rows st) order').

(** [main]: the pass for [index.html], then the pass for [eol.html]. *)
Definition main (versions : list string) (today : date)
    (data : catalog)
  : result (list row * list row) :=
  let* index := generate_timeline versions today data false in
  let* eol_page := generate_timeline versions today data true in
  Ok (index, eol_page).

(** ** A small catalogue used in the examples *)

Definition rec_3_9 : version_record :=
  <["dev" := Date 2019 2 4]>
  (<["alpha1" := Date 2019 11 19]>
  (<["beta1" := Date 2020 5 18]>
  (<["rc1" := Date 2020 8 11]>
  (<["final" := Date 2020 10 5]>
  (<["last-bugfix" := Date 2024 1 1]>
  (<["eol" := Date 2025 6 1]> ∅)))))).

Definition rec_3_10 : version_record :=
  <["dev" := Date 2020 5 19]>
  (<["alpha1" := Date 2020 10 5]>
  (<["beta1" := Date 2021 5 3]>
  (<["rc1" := Date 2021 8 2]>
  (<["final" := Date 2021 10 4]> ∅)))).

Definition data_ex : catalog :=
  <["upstream" := <["3.9" := rec_3_9]> (<["3.10" := rec_3_10]> ∅)]> ∅.

(** A release whose [eol] is its [last-bugfix] date. *)
Definition rec_2_7 : version_record :=
  <["alpha1" := Date 2009 12 5]>
  (<["beta1" := Date 2010 4 10]>
  (<["rc1" := Date 2010 6 5]>
  (<["final" := Date 2010 7 3]>
  (<["last-bugfix" := Date 2020 4 20]>
  (<["eol" := Date 2020 4 20]> ∅))))).

(** A retired release whose record lacks [alpha1]. *)
Definition rec_3_0 : version_record :=
  <["beta1" := Date 2008 6 18]>
  (<["rc1" := Date 2008 9 17]>
  (<["final" := Date 2008 12 3]>
  (<["last-bugfix" := Date 2009 2 13]>
  (<["eol" := Date 2009 6 27]> ∅)))).

Definition data_full : catalog :=
  <["upstream" :=
      <["2.7" := rec_2_7]> (<["3.9" := rec_3_9]> (<["3.10" := rec_3_10]> ∅))]>
  (<["gentoo" := <["3.11" := ∅]> ∅]> ∅).

Definition data_retired : catalog :=
  <["upstream" := <["3.0" := rec_3_0]> (<["3.9" := rec_3_9]> ∅)]> ∅.

(** The state a completed loop ends in (the initial one if it raises). *)
Definition end_state (eol : bool) (today : date)
    (data : catalog)
    (order : list string) : pass_state :=
  match first_loop eol today data initial_state order with
  | Ok st => st
  | Raise _ => initial_state
  end.

(** ** Vocabulary of the statements *)

(** The dates of consecutive bars increase strictly. *)
Definition dates_increasing (bars : list bar) : Prop :=
  ∀ i b b', bars !! i = Some b → bars !! S i = Some b' → date_lt b.2 b'.2 = true.

Definition required_milestones : list string := ["alpha1"; "beta1"; "rc1"; "final"].

Definition dev_bars (vdata : version_record) : list bar :=
  match vdata !! "dev" with Some d => [("dev", d)] | None => [] end.

Definition security_bars (vdata : version_record) : list bar :=
  match vdata !! "last-bugfix" with Some d => [("security", d)] | None => [] end.

(** The bars every processed version starts with. *)
Definition base_bars (vdata : version_record) (a b r f : date) : list bar :=
  dev_bars vdata
  ++ [(alpha_label, a); (beta_label, b); ("rc", r); ("stable", f)]
  ++ security_bars vdata.

Ltac in_list := apply list_elem_of_In; simpl; auto 10.

Ltac vb_lookups vdata :=
  destruct (vdata !! "eol") as [?e|] eqn:?Heol;
  destruct (vdata !! "dev") as [?dv|] eqn:?Hdev;
  destruct (vdata !! "alpha1") as [?a|] eqn:?Halpha;
  destruct (vdata !! "beta1") as [?b|] eqn:?Hbeta;
  destruct (vdata !! "rc1") as [?r|] eqn:?Hrc;
  destruct (vdata !! "final") as [?f|] eqn:?Hfinal;
  destruct (vdata !! "last-bugfix") as [?lb|] eqn:?Hlb.

(** [a] is not after [b] in key order. *)
Definition keyed_le (p q : list Z * string) : Prop := tuple_lt q.1 p.1 = false.

(** [v] is not after [w]: both keys exist, and the key of [v] is below or
    equal to the key of [w]. *)
Definition key_le (v w : string) : Prop :=
  ∃ kv kw, version_key v = Ok kv ∧ version_key w = Ok kw ∧
           (tuple_lt kv kw = true ∨ kv = kw).

(** [m] is the greatest date of [ds], unset when there is none. *)
Definition is_maximum (ds : list date) (m : option date) : Prop :=
  match m with
  | None => ds = []
  | Some x => x ∈ ds ∧ ∀ d, d ∈ ds → date_le d x = true
  end.

(** The [eol] date of a version that has a record with an [eol] field and
    is not skipped by the pass. *)
Definition processed_eol (eol : bool) (today : date)
    (data : catalog)
    (version : string) : option date :=
  match upstream data !! version with
  | Some vdata => if skip_version eol today vdata then None else vdata !! "eol"
  | None => None
  end.

Definition processed_eols (eol : bool) (today : date)
    (data : catalog)
    (done : list string) : list date :=
  omap (processed_eol eol today data) done.

(** Every entry of [all_rows] is filed under its own label and holds the
    bars of a completed iteration. *)
Definition rows_ok (eol : bool) (today : date)
    (data : catalog)
    (rows : gmap string (list (string * list bar))) : Prop :=
  ∀ v entries label bars,
    rows !! v = Some entries → (label, bars) ∈ entries →
    label = v ∧
    ∃ vdata m m', upstream data !! v = Some vdata ∧
                  version_bars eol today vdata m = Ok (Some (bars, m')).

(** The loop does not process [v]: it is not listed, has no upstream record,
    or is skipped. *)
Definition not_processed (eol : bool) (today : date)
    (data : catalog)
    (order : list string) (v : string) : Prop :=
  v ∉ order ∨ upstream data !! v = None ∨
  ∃ vdata, upstream data !! v = Some vdata ∧ skip_version eol today vdata = true.

(** The labels a bar can carry, in the order the loop body appends them. *)
Definition bar_labels : list string :=
  ["dev"; alpha_label; beta_label; "rc"; "stable"; "security"; "eol"; "future"].

(** The labels a printed row can carry as its state. *)
Definition row_states : list string :=
  ["dev"; alpha_label; beta_label; "rc"; "stable"; "security"].

(** [version] has an upstream record that the pass for [index.html] skips. *)
Definition is_retired (today : date) (data : catalog) (version : string) : bool :=
  match upstream data !! version with
  | Some vdata => skip_version false today vdata
  | None => false
  end.

(** The number of bars the loop body appends after the ["security"] bar. *)
Definition closing_bars (vdata : version_record) : nat :=
  match vdata !! "eol", vdata !! "last-bugfix" with
  | Some e, Some lb => if decide (e = lb) then 0 else 1
  | _, _ => 1
  end.

(** A record the loop body can work through: the four required milestones
    are there, and [last-bugfix] is there when [eol] is. *)
Definition complete_record (vdata : version_record) : Prop :=
  (∀ k, k ∈ required_milestones → is_Some (vdata !! k)) ∧
  (is_Some (vdata !! "eol") → is_Some (vdata !! "last-bugfix")).

(** The conditions on a sorted list of versions under which a pass runs to
    its end: every record it processes is complete, and every processed
    record without [eol] comes after a processed record with [eol]. *)
Definition pass_runs (eol : bool) (today : date) (data : catalog)
    (order : list string) : Prop :=
  (∀ v vdata,
     v ∈ order → upstream data !! v = Some vdata →
     skip_version eol today vdata = false → complete_record vdata) ∧
  (∀ done v rest vdata,
     order = done ++ v :: rest → upstream data !! v = Some vdata →
     vdata !! "eol" = None → processed_eols eol today data done ≠ []).

(** The two passes of a run seen side by side, [sf] in the pass for
    [index.html] and [st] in the pass for [eol.html], after the same
    versions: retired versions have rows in [st] only, the others have the
    same rows, and [max_eol] is the same once a date after today was seen
    (until then the first pass has none and the second one a past date). *)
Definition passes_agree (today : date) (data : catalog) (sf st : pass_state) : Prop :=
  (∀ v, all_rows sf !! v
        = if is_retired today data v then None else all_rows st !! v) ∧
  ((max_eol sf = max_eol st ∧ ∀ x, max_eol sf = Some x → date_lt today x = true) ∨
   (max_eol sf = None ∧ ∃ y, max_eol st = Some y ∧ date_le y today = true)).

(** The rows of a completed pass (none if it raised). *)
Definition rows_of (r : result (list row)) : list row :=
  match r with
  | Ok rows => rows
  | Raise _ => []
  end.

(** No two of the [versions] have the same key. *)
Definition distinct_keys (versions : list string) : Prop :=
  ∀ v w k, v ∈ versions → w ∈ versions →
           version_key v = Ok k → version_key w = Ok k → v = w.

(** The number of occurrences of [c] in [s]. *)
Fixpoint count_char (c : ascii) (s : string) : nat :=
  match s with
  | EmptyString => 0
  | String c' rest => (if Ascii.eqb c' c then 1 else 0) + count_char c rest
  end.

(** [s] consists of decimal digits only. *)
Fixpoint all_digits (s : string) : bool :=
  match s with
  | EmptyString => true
  | String c rest => bool_decide (is_Some (digit_of c)) && all_digits rest
  end.

(** A part of a well-formed version string: one or more decimal digits, no
    more than [int] converts. *)
Definition digit_group (s : string) : Prop :=
  s ≠ EmptyString ∧ all_digits s = true ∧
  Z.of_nat (String.length s) ≤ max_str_digits.

(** [s] is an ASCII string: the strings on which [py_int], and with it
    [version_key], is the conversion the code performs. *)
Fixpoint is_ascii (s : string) : bool :=
  match s with
  | EmptyString => true
  | String c rest => N.ltb (N_of_ascii c) 128 && is_ascii rest
  end.

(** A catalogue whose releases are all retired by 2026. *)
Definition data_past : catalog :=
  <["upstream" := <["2.7" := rec_2_7]> (<["3.9" := rec_3_9]> ∅)]> ∅.

(** A catalogue without the "upstream" table. *)
Definition data_no_upstream : catalog :=
  <["gentoo" := <["3.11" := rec_3_10]> ∅]> ∅.

(** * Properties *)

(** ** Version keys on examples *)

Example version_key_3_10 : version_key "3.10" = Ok [3; 10].
Proof. reflexivity. Qed.

Example version_key_bad : version_key "3.x" = Raise ValueError.
Proof. reflexivity. Qed.

Example version_key_empty_part : version_key "3." = Raise ValueError.
Proof. reflexivity. Qed.

Example py_int_forms :
  py_int " 12 " = Ok 12 ∧ py_int "-7" = Ok (-7) ∧ py_int "1_0" = Ok 10 ∧
  py_int "09" = Ok 9 ∧ py_int "1__0" = Raise ValueError ∧
  py_int "_1" = Raise ValueError ∧ py_int "" = Raise ValueError.
Proof. repeat split; reflexivity. Qed.

Example sorted_example :
  sorted_versions ["3.11"; "3.9"; "3.10"; "2.7"] = Ok ["2.7"; "3.9"; "3.10"; "3.11"].
Proof. reflexivity. Qed.

(** ** Order on dates *)

Lemma date_cmp_eq (a b : date) : date_cmp a b = Eq ↔ a = b.
Proof.
  destruct a as [ya ma da], b as [yb mb db]; unfold date_cmp; simpl.
  split.
  - destruct (Z.compare_spec ya yb); try discriminate.
    destruct (Z.compare_spec ma mb); try discriminate.
    destruct (Z.compare_spec da db); try discriminate.
    intros _; congruence.
  - intros [= -> -> ->]. by rewrite !Z.compare_refl.
Qed.

Lemma date_cmp_refl (a : date) : date_cmp a a = Eq.
Proof. by apply date_cmp_eq. Qed.

Lemma date_cmp_antisym (a b : date) : date_cmp b a = CompOpp (date_cmp a b).
Proof.
  destruct a as [ya ma da], b as [yb mb db]; unfold date_cmp; simpl.
  rewrite (Z.compare_antisym ya yb), (Z.compare_antisym ma mb),
    (Z.compare_antisym da db).
  destruct (ya ?= yb), (ma ?= mb), (da ?= db); reflexivity.
Qed.

Lemma date_cmp_lt_trans (a b c : date) :
  date_cmp a b = Lt → date_cmp b c = Lt → date_cmp a c = Lt.
Proof.
  destruct a as [ya ma da], b as [yb mb db], c as [yc mc dc].
  unfold date_cmp; simpl.
  destruct (Z.compare_spec ya yb), (Z.compare_spec yb yc);
    destruct (Z.compare_spec ya yc); try lia; try discriminate; try done;
    destruct (Z.compare_spec ma mb), (Z.compare_spec mb mc);
    destruct (Z.compare_spec ma mc); try lia; try discriminate; try done;
    destruct (Z.compare_spec da db), (Z.compare_spec db dc);
    destruct (Z.compare_spec da dc); try lia; try discriminate; done.
Qed.

Lemma date_ne_true (a b : date) : date_ne a b = true ↔ a ≠ b.
Proof.
  unfold date_ne. rewrite <- date_cmp_eq.
  destruct (date_cmp a b); split; try done; intros H; by destruct H.
Qed.

Lemma date_ne_false (a b : date) : date_ne a b = false ↔ a = b.
Proof.
  unfold date_ne. rewrite <- date_cmp_eq.
  destruct (date_cmp a b); split; done.
Qed.

Lemma date_le_refl (a : date) : date_le a a = true.
Proof. unfold date_le. by rewrite date_cmp_refl. Qed.

Lemma date_le_trans (a b c : date) :
  date_le a b = true → date_le b c = true → date_le a c = true.
Proof.
  unfold date_le.
  destruct (date_cmp a b) eqn:Hab; try done; intros _;
    destruct (date_cmp b c) eqn:Hbc; try done; intros _.
  - apply date_cmp_eq in Hab as ->. by rewrite Hbc.
  - apply date_cmp_eq in Hab as ->. by rewrite Hbc.
  - apply date_cmp_eq in Hbc as <-. by rewrite Hab.
  - by rewrite (date_cmp_lt_trans a b c).
Qed.

Lemma date_gt_false_le (a b : date) : date_gt b a = false → date_le b a = true.
Proof. unfold date_gt, date_le. by destruct (date_cmp b a). Qed.

Lemma date_gt_true_le (a b : date) : date_gt b a = true → date_le a b = true.
Proof.
  unfold date_gt, date_le. rewrite (date_cmp_antisym b a).
  by destruct (date_cmp b a).
Qed.

Lemma date_le_lt_false (a b : date) : date_le a b = true → date_lt b a = false.
Proof.
  unfold date_le, date_lt. rewrite (date_cmp_antisym a b).
  by destruct (date_cmp a b).
Qed.

Lemma py_max_ge_l (a b : date) : date_le a (py_max a b) = true.
Proof.
  unfold py_max. destruct (date_gt b a) eqn:H.
  - by apply date_gt_true_le.
  - apply date_le_refl.
Qed.

Lemma py_max_ge_r (a b : date) : date_le b (py_max a b) = true.
Proof.
  unfold py_max. destruct (date_gt b a) eqn:H.
  - apply date_le_refl.
  - by apply date_gt_false_le.
Qed.

Lemma py_max_cases (a b : date) : py_max a b = a ∨ py_max a b = b.
Proof. unfold py_max. destruct (date_gt b a); auto. Qed.

(** ** Rows of a bar list *)

Lemma print_row_from_length (label : string) (p : bar) (bars : list bar) :
  length (print_row_from label (Some p) bars) = length bars.
Proof.
  revert p. induction bars as [|[l d] rest IH]; intros p; simpl; [done|].
  by rewrite IH.
Qed.

Lemma print_row_from_lookup (label : string) (p : bar) (bars : list bar)
    (i : nat) (b b' : bar) :
  (p :: bars) !! i = Some b → bars !! i = Some b' →
  print_row_from label (Some p) bars !! i = Some (Row label b.1 b.2 b'.2).
Proof.
  revert p i. induction bars as [|[l d] rest IH]; intros p i Hb Hb'; [done|].
  destruct i as [|i]; simpl in *.
  - by simplify_eq.
  - by apply IH.
Qed.

Lemma print_row_cons (label : string) (b : bar) (bars : list bar) :
  print_row label (b :: bars) = print_row_from label (Some b) bars.
Proof. by destruct b. Qed.

Lemma print_row_length (label : string) (bars : list bar) :
  length (print_row label bars) = (length bars - 1)%nat.
Proof.
  destruct bars as [|b rest]; [done|].
  rewrite print_row_cons, print_row_from_length. simpl. lia.
Qed.

Lemma print_row_lookup (label : string) (bars : list bar) (i : nat) (b b' : bar) :
  bars !! i = Some b → bars !! S i = Some b' →
  print_row label bars !! i = Some (Row label b.1 b.2 b'.2).
Proof.
  destruct bars as [|b0 rest]; [done|]. intros Hb Hb'.
  rewrite print_row_cons. by apply print_row_from_lookup.
Qed.

Lemma print_row_elem (label : string) (bars : list bar) (r : row) :
  r ∈ print_row label bars →
  ∃ i b b', bars !! i = Some b ∧ bars !! S i = Some b' ∧
            r = Row label b.1 b.2 b'.2.
Proof.
  intros [i Hi]%list_elem_of_lookup.
  pose proof (lookup_lt_Some _ _ _ Hi) as Hlt.
  rewrite print_row_length in Hlt.
  destruct (lookup_lt_is_Some_2 bars i) as [b Hb]; [lia|].
  destruct (lookup_lt_is_Some_2 bars (S i)) as [b' Hb']; [lia|].
  exists i, b, b'. split_and!; try done.
  rewrite (print_row_lookup label bars i b b' Hb Hb') in Hi. congruence.
Qed.

Lemma print_row_label (label : string) (bars : list bar) (r : row) :
  r ∈ print_row label bars → row_label r = label.
Proof. intros (i & b & b' & _ & _ & ->)%print_row_elem. done. Qed.

(** C1. A bar list of N >= 2 bars gives exactly N-1 rows, row [i] carrying
    the label and date of bar [i] and ending at the date of bar [i+1]; fewer
    than two bars give no row; and when the dates of the bars increase
    strictly, every row ends after it starts. *)
Theorem print_row_pairs (label : string) (bars : list bar) :
  length (print_row label bars) = (length bars - 1)%nat ∧
  (∀ i b b', bars !! i = Some b → bars !! S i = Some b' →
     print_row label bars !! i = Some (Row label b.1 b.2 b'.2)) ∧
  ((length bars < 2)%nat → print_row label bars = []) ∧
  (dates_increasing bars →
     ∀ r, r ∈ print_row label bars → date_lt (row_start r) (row_end r) = true).
Proof.
  split_and!.
  - apply print_row_length.
  - intros i b b'. apply print_row_lookup.
  - intros Hlen. apply length_zero_iff_nil. rewrite print_row_length. lia.
  - intros Hinc r (i & b & b' & Hb & Hb' & ->)%print_row_elem. simpl.
    by apply (Hinc i).
Qed.

(** ** The bars of one version *)

Lemma version_bars_skip (eol : bool) (today : date) (vdata : version_record)
    (m : option date) :
  skip_version eol today vdata = true → version_bars eol today vdata m = Ok None.
Proof. unfold version_bars. by intros ->. Qed.

Lemma version_bars_none (eol : bool) (today : date) (vdata : version_record)
    (m : option date) :
  version_bars eol today vdata m = Ok None → skip_version eol today vdata = true.
Proof.
  unfold version_bars. destruct (skip_version eol today vdata); [done|].
  unfold getitem, bind. vb_lookups vdata; try done;
    destruct m; try done; destruct (date_ne _ _); done.
Qed.

(** What a completed iteration has built. *)
Lemma version_bars_ok (eol : bool) (today : date) (vdata : version_record)
    (m : option date) (bars : list bar) (m' : option date) :
  version_bars eol today vdata m = Ok (Some (bars, m')) →
  skip_version eol today vdata = false ∧
  ∃ a b r f,
    vdata !! "alpha1" = Some a ∧ vdata !! "beta1" = Some b ∧
    vdata !! "rc1" = Some r ∧ vdata !! "final" = Some f ∧
    match vdata !! "eol" with
    | Some e =>
        ∃ lb, vdata !! "last-bugfix" = Some lb ∧
              bars = base_bars vdata a b r f
                     ++ (if decide (e = lb) then [] else [("eol", e)]) ∧
              m' = Some (match m with None => e | Some x => py_max x e end)
    | None =>
        ∃ x, m = Some x ∧ bars = base_bars vdata a b r f ++ [("future", x)] ∧
             m' = Some x
    end.
Proof.
  unfold version_bars. destruct (skip_version eol today vdata); [done|].
  intros H. split; [done|]. revert H.
  unfold getitem, bind, base_bars, dev_bars, security_bars.
  vb_lookups vdata; try done; simpl.
  all: try (destruct m as [x|]; [|done]; intros [= <- <-];
            exists a, b, r, f; split_and!; try done; by exists x).
  all: destruct (date_ne e lb) eqn:Hne;
    [apply date_ne_true in Hne | apply date_ne_false in Hne];
    simpl; destruct m as [x|]; intros [= <- <-];
    exists a, b, r, f; split_and!; try done; exists lb;
    (destruct (decide (e = lb)); [|done..]); subst; done.
Qed.

(** When an iteration completes. *)
Lemma version_bars_total (eol : bool) (today : date) (vdata : version_record)
    (m : option date) :
  skip_version eol today vdata = false →
  (∀ k, k ∈ required_milestones → is_Some (vdata !! k)) →
  (is_Some (vdata !! "eol") → is_Some (vdata !! "last-bugfix")) →
  (vdata !! "eol" = None → is_Some m) →
  ∃ bars m', version_bars eol today vdata m = Ok (Some (bars, m')).
Proof.
  intros Hskip Hreq Hlb Hm. unfold version_bars. rewrite Hskip.
  destruct (Hreq "alpha1") as [a Ha]; [in_list|].
  destruct (Hreq "beta1") as [b Hb]; [in_list|].
  destruct (Hreq "rc1") as [r Hr]; [in_list|].
  destruct (Hreq "final") as [f Hf]; [in_list|].
  unfold getitem, bind. rewrite Ha, Hb, Hr, Hf.
  destruct (vdata !! "eol") as [e|] eqn:Heol.
  - destruct Hlb as [lb Hlb]; [done|]. rewrite Hlb.
    destruct (vdata !! "dev"), (date_ne e lb), m; simpl; eauto.
  - destruct Hm as [x ->]; [done|]. eauto.
Qed.

(** A missing required milestone raises [KeyError], whatever [max_eol] is,
    unless the version is skipped. *)
Lemma version_bars_missing (eol : bool) (today : date) (vdata : version_record)
    (m : option date) (k : string) :
  skip_version eol today vdata = false →
  k ∈ required_milestones → vdata !! k = None →
  ∃ k', k' ∈ required_milestones ∧ vdata !! k' = None ∧
        version_bars eol today vdata m = Raise (KeyError k').
Proof.
  intros Hskip Hk Hnone. unfold version_bars. rewrite Hskip.
  unfold getitem, bind.
  destruct (vdata !! "alpha1") eqn:Ha;
    [|exists "alpha1"; split_and!; [in_list|done..]].
  destruct (vdata !! "beta1") eqn:Hb;
    [|exists "beta1"; split_and!; [in_list|done..]].
  destruct (vdata !! "rc1") eqn:Hr;
    [|exists "rc1"; split_and!; [in_list|done..]].
  destruct (vdata !! "final") eqn:Hf;
    [|exists "final"; split_and!; [in_list|done..]].
  unfold required_milestones in Hk.
  repeat (apply elem_of_cons in Hk as [->|Hk]; [congruence|]).
  by apply elem_of_nil in Hk.
Qed.

Lemma skip_version_eol_mode (today : date) (vdata : version_record) :
  skip_version true today vdata = false.
Proof. done. Qed.

Lemma skip_version_retired (today : date) (vdata : version_record) (e : date) :
  vdata !! "eol" = Some e → date_le e today = true →
  skip_version false today vdata = true.
Proof. unfold skip_version. by intros -> ->. Qed.

(** ** Sorting by version key *)

Lemma mapM_ok {A B : Type} (f : A → result B) (l : list A) (ys : list B) :
  mapM f l = Ok ys → Forall2 (fun x y => f x = Ok y) l ys.
Proof.
  revert ys. induction l as [|x l IH]; intros ys; simpl.
  - intros [= <-]. constructor.
  - unfold bind. destruct (f x) as [y|] eqn:Hy; [|done].
    destruct (mapM f l) as [ys'|]; [|done]. intros [= <-].
    constructor; auto.
Qed.

Lemma mapM_raise {A B : Type} (f : A → result B) (l : list A) (x : A) :
  x ∈ l → raises (f x) → raises (mapM f l).
Proof.
  intros Hx [e He]. induction l as [|y l IH]; [by apply elem_of_nil in Hx|].
  simpl. unfold bind. apply elem_of_cons in Hx as [<-|Hx].
  - rewrite He. by eexists.
  - destruct (f y); [|by eexists].
    destruct (IH Hx) as [e' ->]. by eexists.
Qed.

Lemma tuple_lt_asym (a b : list Z) : tuple_lt a b = true → tuple_lt b a = false.
Proof.
  revert b. induction a as [|x a IH]; intros [|y b]; simpl; try done.
  destruct (Z.eqb_spec x y) as [->|Hne].
  - rewrite Z.eqb_refl. apply IH.
  - destruct (Z.eqb_spec y x); [congruence|].
    intros ?%Z.ltb_lt. apply Z.ltb_ge. lia.
Qed.

Lemma tuple_le_trans (a b c : list Z) :
  tuple_lt b a = false → tuple_lt c b = false → tuple_lt c a = false.
Proof.
  revert b c. induction a as [|x a IH]; intros b c.
  - by destruct c.
  - destruct b as [|y b]; [done|]. destruct c as [|z c]; [done|]. simpl.
    destruct (Z.eqb_spec y x) as [->|Hyx].
    + destruct (Z.eqb_spec z x) as [->|Hzx]; [apply IH|done].
    + intros Hlt%Z.ltb_ge.
      destruct (Z.eqb_spec z y) as [->|Hzy].
      * intros _. destruct (Z.eqb_spec y x); [done|]. apply Z.ltb_ge. lia.
      * intros Hlt'%Z.ltb_ge. destruct (Z.eqb_spec z x); [lia|].
        apply Z.ltb_ge. lia.
Qed.

Lemma insert_keyed_perm (x : list Z * string) (l : list (list Z * string)) :
  insert_keyed x l ≡ₚ x :: l.
Proof.
  induction l as [|y l IH]; simpl; [done|].
  destruct (tuple_lt y.1 x.1); [|done].
  rewrite IH. apply perm_swap.
Qed.

Lemma sort_keyed_perm (l : list (list Z * string)) : sort_keyed l ≡ₚ l.
Proof.
  induction l as [|x l IH]; simpl; [done|].
  by rewrite insert_keyed_perm, IH.
Qed.

Lemma insert_keyed_sorted (x : list Z * string) (l : list (list Z * string)) :
  StronglySorted keyed_le l → StronglySorted keyed_le (insert_keyed x l).
Proof.
  induction 1 as [|y l Hsorted IH Hall]; simpl.
  - repeat constructor.
  - destruct (tuple_lt y.1 x.1) eqn:Hlt.
    + constructor; [done|]. rewrite insert_keyed_perm.
      constructor; [|done]. by apply tuple_lt_asym.
    + constructor; [by constructor|].
      constructor; [done|].
      eapply Forall_impl; [exact Hall|].
      intros z Hz. unfold keyed_le in *. by apply (tuple_le_trans _ y.1).
Qed.

Lemma sort_keyed_sorted (l : list (list Z * string)) :
  StronglySorted keyed_le (sort_keyed l).
Proof.
  induction l as [|x l IH]; simpl; [constructor|].
  by apply insert_keyed_sorted.
Qed.

Lemma tuple_lt_total (a b : list Z) :
  tuple_lt a b = false → tuple_lt b a = false → a = b.
Proof.
  revert b. induction a as [|x a IH]; intros [|y b]; simpl; try done.
  destruct (Z.eqb_spec x y) as [->|Hne].
  - rewrite Z.eqb_refl. intros H1 H2. f_equal. by apply IH.
  - destruct (Z.eqb_spec y x); [congruence|].
    intros ?%Z.ltb_ge ?%Z.ltb_ge. lia.
Qed.

Lemma keyed_sorted_versions (keyed : list (list Z * string)) :
  Forall (fun p => version_key p.2 = Ok p.1) keyed →
  StronglySorted keyed_le keyed → StronglySorted key_le (keyed.*2).
Proof.
  intros Hkeys. induction 1 as [|p l Hsorted IH Hall]; simpl; [constructor|].
  apply Forall_cons in Hkeys as [Hp Hl].
  constructor; [by apply IH|].
  rewrite Forall_fmap. rewrite Forall_forall in Hall, Hl |- *.
  intros q Hq. exists p.1, q.1. split_and!; [done|by apply Hl|].
  specialize (Hall q Hq). unfold keyed_le in Hall.
  destruct (tuple_lt p.1 q.1) eqn:Hlt; [by left|right].
  by apply tuple_lt_total.
Qed.

Lemma decorate_ok (versions : list string) (keyed : list (list Z * string)) :
  mapM decorate versions = Ok keyed →
  keyed.*2 = versions ∧ Forall (fun p => version_key p.2 = Ok p.1) keyed.
Proof.
  intros H%mapM_ok. induction H as [|v p vs ks Hp _ [IH1 IH2]]; [done|].
  unfold decorate, bind in Hp.
  destruct (version_key v) as [k|] eqn:Hk; [|done].
  injection Hp as <-. split; [by rewrite fmap_cons, IH1|].
  by constructor.
Qed.

Lemma sorted_versions_ok (versions order : list string) :
  sorted_versions versions = Ok order →
  order ≡ₚ versions ∧ StronglySorted key_le order.
Proof.
  unfold sorted_versions, bind.
  destruct (mapM decorate versions) as [keyed|] eqn:Hk; [|done].
  intros [= <-]. apply decorate_ok in Hk as [Hv Hkeys]. split.
  - rewrite <- Hv. by rewrite sort_keyed_perm.
  - apply keyed_sorted_versions; [|apply sort_keyed_sorted].
    by rewrite sort_keyed_perm.
Qed.

Lemma sorted_versions_elem (versions order : list string) (v : string) :
  sorted_versions versions = Ok order → v ∈ order ↔ v ∈ versions.
Proof. intros [Hp _]%sorted_versions_ok. by rewrite Hp. Qed.

Lemma sorted_versions_NoDup (versions order : list string) :
  sorted_versions versions = Ok order → NoDup versions → NoDup order.
Proof. intros [Hp _]%sorted_versions_ok. by rewrite Hp. Qed.

(** ** The version loop *)

Lemma loop_body_cases (eol : bool) (today : date)
    (data : catalog)
    (st st' : pass_state) (v : string) :
  loop_body eol today data st v = Ok st' →
  (upstream data !! v = None ∧ st' = st) ∨
  (∃ vdata, upstream data !! v = Some vdata ∧
            skip_version eol today vdata = true ∧ st' = st) ∨
  (∃ vdata bars m',
      upstream data !! v = Some vdata ∧
      version_bars eol today vdata (max_eol st) = Ok (Some (bars, m')) ∧
      st' = PassState m'
              (<[v := default [] (all_rows st !! v) ++ [(v, bars)]]> (all_rows st))).
Proof.
  unfold loop_body, bind.
  destruct (upstream data !! v) as [vdata|]; [|intros [= <-]; by left].
  destruct (version_bars eol today vdata (max_eol st)) as [[[bars m']|]|] eqn:Hvb;
    [| |done].
  - intros [= <-]. right; right. by exists vdata, bars, m'.
  - intros [= <-]. right; left. exists vdata. split_and!; try done.
    by apply version_bars_none in Hvb.
Qed.

Lemma loop_body_skipped (eol : bool) (today : date)
    (data : catalog)
    (st : pass_state) (v : string) (vdata : version_record) :
  upstream data !! v = Some vdata → skip_version eol today vdata = true →
  loop_body eol today data st v = Ok st.
Proof.
  intros Hv Hskip. unfold loop_body, bind. rewrite Hv.
  by rewrite (version_bars_skip _ _ _ _ Hskip).
Qed.

Lemma loop_body_built (eol : bool) (today : date)
    (data : catalog)
    (st : pass_state) (v : string) (vdata : version_record)
    (bars : list bar) (m' : option date) :
  upstream data !! v = Some vdata →
  version_bars eol today vdata (max_eol st) = Ok (Some (bars, m')) →
  loop_body eol today data st v =
  Ok (PassState m'
        (<[v := default [] (all_rows st !! v) ++ [(v, bars)]]> (all_rows st))).
Proof. intros Hv Hvb. unfold loop_body, bind. by rewrite Hv, Hvb. Qed.

Lemma first_loop_app (eol : bool) (today : date)
    (data : catalog)
    (st : pass_state) (l1 l2 : list string) :
  first_loop eol today data st (l1 ++ l2) =
  let* st' := first_loop eol today data st l1 in first_loop eol today data st' l2.
Proof.
  revert st. induction l1 as [|v l1 IH]; intros st; simpl; [done|].
  unfold bind at 1 3. destruct (loop_body eol today data st v); [|done].
  apply IH.
Qed.

(** An iteration that raises aborts the loop, whatever came before it. *)
Lemma first_loop_raises (eol : bool) (today : date)
    (data : catalog)
    (st : pass_state) (order : list string) (v : string) :
  v ∈ order → (∀ st0, raises (loop_body eol today data st0 v)) →
  raises (first_loop eol today data st order).
Proof.
  intros Hv Hraise. revert st.
  induction order as [|w order IH]; intros st; [by apply elem_of_nil in Hv|].
  simpl. unfold bind.
  destruct (loop_body eol today data st w) as [st'|e] eqn:Hw; [|by exists e].
  apply elem_of_cons in Hv as [<-|Hv].
  - destruct (Hraise st) as [e He]. congruence.
  - by apply IH.
Qed.

Lemma generate_timeline_ok (versions : list string) (today : date)
    (data : catalog) (eol : bool)
    (rows : list row) :
  generate_timeline versions today data eol = Ok rows →
  ∃ order st, sorted_versions versions = Ok order ∧
              first_loop eol today data initial_state order = Ok st ∧
              rows = second_loop (all_rows st) order.
Proof.
  unfold generate_timeline, bind.
  destruct (sorted_versions versions) as [order|]; [|done].
  destruct (first_loop eol today data initial_state order) as [st|] eqn:Hloop;
    [|done].
  intros [= <-]. by exists order, st.
Qed.

(** ** The running maximum *)

Lemma is_maximum_snoc (ds : list date) (m : option date) (e : date) :
  is_maximum ds m →
  is_maximum (ds ++ [e]) (Some (match m with None => e | Some x => py_max x e end)).
Proof.
  destruct m as [x|]; simpl.
  - intros [Hx Hle]. split.
    + apply elem_of_app. destruct (py_max_cases x e) as [-> | ->]; [by left|].
      right. by apply list_elem_of_singleton.
    + intros d [Hd | ->%list_elem_of_singleton]%elem_of_app.
      * eapply date_le_trans; [by apply Hle|apply py_max_ge_l].
      * apply py_max_ge_r.
  - intros ->. split; [by apply list_elem_of_singleton|].
    intros d ->%list_elem_of_singleton. apply date_le_refl.
Qed.

Lemma loop_body_maximum (eol : bool) (today : date)
    (data : catalog)
    (st st' : pass_state) (v : string) (ds : list date) :
  loop_body eol today data st v = Ok st' →
  is_maximum ds (max_eol st) →
  is_maximum (ds ++ processed_eols eol today data [v]) (max_eol st').
Proof.
  intros Hbody Hmax. unfold processed_eols, processed_eol. simpl.
  apply loop_body_cases in Hbody
    as [[-> ->]|[(vdata & -> & -> & ->)|(vdata & bars & m' & -> & Hvb & ->)]].
  - by rewrite app_nil_r.
  - by rewrite app_nil_r.
  - apply version_bars_ok in Hvb as (-> & a & b & r & f & _ & _ & _ & _ & Hcase).
    simpl. destruct (vdata !! "eol") as [e|].
    + destruct Hcase as (lb & _ & _ & ->). by apply is_maximum_snoc.
    + destruct Hcase as (x & Hx & _ & ->). rewrite app_nil_r. by rewrite <- Hx.
Qed.

Lemma first_loop_maximum (eol : bool) (today : date)
    (data : catalog)
    (st st' : pass_state) (done : list string) (ds : list date) :
  first_loop eol today data st done = Ok st' →
  is_maximum ds (max_eol st) →
  is_maximum (ds ++ processed_eols eol today data done) (max_eol st').
Proof.
  revert st ds. induction done as [|v done IH]; intros st ds; simpl.
  - intros [= <-]. by rewrite app_nil_r.
  - unfold bind. destruct (loop_body eol today data st v) as [st1|] eqn:Hv; [|done].
    intros Hrest Hmax.
    pose proof (loop_body_maximum _ _ _ _ _ _ _ Hv Hmax) as Hmax1.
    pose proof (IH _ _ Hrest Hmax1) as Hfinal.
    rewrite <- app_assoc in Hfinal.
    unfold processed_eols in *. simpl in Hfinal |- *.
    by destruct (processed_eol eol today data v).
Qed.

Lemma version_bars_last (eol : bool) (today : date) (vdata : version_record)
    (m : option date) (bars : list bar) (m' : option date) :
  version_bars eol today vdata m = Ok (Some (bars, m')) →
  match vdata !! "eol" with
  | Some e =>
      last bars = Some (if decide (vdata !! "last-bugfix" = Some e)
                        then ("security", e) else ("eol", e))
  | None => ∃ x, m = Some x ∧ m' = Some x ∧ last bars = Some ("future", x)
  end.
Proof.
  intros (_ & a & b & r & f & _ & _ & _ & _ & Hcase)%version_bars_ok.
  destruct (vdata !! "eol") as [e|].
  - destruct Hcase as (lb & Hlb & -> & _). rewrite Hlb.
    destruct (decide (e = lb)) as [->|Hne].
    + rewrite decide_True by done. rewrite app_nil_r.
      unfold base_bars, security_bars. rewrite Hlb.
      by rewrite !app_assoc, last_snoc.
    + rewrite decide_False by congruence. by rewrite last_snoc.
  - destruct Hcase as (x & -> & -> & ->). exists x. by rewrite last_snoc.
Qed.

(** C2. In a pass, [max_eol] starts unset; after any sequence of versions has
    been processed it is the greatest [eol] date among the versions that
    have a record with an [eol] field and were not skipped (none: unset);
    the date taken from the last bar of such a version is its [eol] date;
    and an iteration over a record without [eol] leaves [max_eol] as it
    was. *)
Theorem max_eol_running_maximum (eol : bool) (today : date)
    (data : catalog)
    (done : list string) (st : pass_state) :
  first_loop eol today data initial_state done = Ok st →
  max_eol initial_state = None ∧
  is_maximum (processed_eols eol today data done) (max_eol st) ∧
  (∀ vdata m bars m' e,
     version_bars eol today vdata m = Ok (Some (bars, m')) →
     vdata !! "eol" = Some e →
     (∃ label, last bars = Some (label, e)) ∧
     m' = Some (match m with None => e | Some x => py_max x e end)) ∧
  (∀ st0 st1 v vdata,
     upstream data !! v = Some vdata → vdata !! "eol" = None →
     loop_body eol today data st0 v = Ok st1 → max_eol st1 = max_eol st0).
Proof.
  intros Hloop. split_and!.
  - done.
  - by apply (first_loop_maximum _ _ _ _ _ _ [] Hloop).
  - intros vdata m bars m' e Hvb He. split.
    + apply version_bars_last in Hvb. rewrite He in Hvb.
      destruct (decide _); eauto.
    + apply version_bars_ok in Hvb as (_ & a & b & r & f & _ & _ & _ & _ & Hcase).
      rewrite He in Hcase. by destruct Hcase as (lb & _ & _ & ->).
  - intros st0 st1 v vdata Hv He Hbody.
    apply loop_body_cases in Hbody
      as [[_ ->]|[(vdata' & _ & _ & ->)|(vdata' & bars & m' & Hv' & Hvb & ->)]];
      try done.
    assert (vdata' = vdata) as -> by congruence.
    apply version_bars_last in Hvb. rewrite He in Hvb.
    by destruct Hvb as (x & -> & -> & _).
Qed.

Lemma max_eol_running_maximum_witness :
  is_maximum
    (processed_eols true (Date 2026 6 1) data_full ["2.7"; "3.9"; "3.10"; "3.11"])
    (max_eol (end_state true (Date 2026 6 1) data_full ["2.7"; "3.9"; "3.10"; "3.11"])).
Proof.
  apply (max_eol_running_maximum true (Date 2026 6 1) data_full
           ["2.7"; "3.9"; "3.10"; "3.11"]).
  vm_compute. reflexivity.
Defined.

Example max_eol_after_full_pass :
  max_eol (end_state true (Date 2026 6 1) data_full ["2.7"; "3.9"; "3.10"; "3.11"])
  = Some (Date 2025 6 1) ∧
  processed_eols true (Date 2026 6 1) data_full ["2.7"; "3.9"; "3.10"; "3.11"]
  = [Date 2020 4 20; Date 2025 6 1] ∧
  processed_eols false (Date 2026 6 1) data_full ["2.7"; "3.9"; "3.10"; "3.11"]
  = [].
Proof. vm_compute. done. Qed.

(** ** The rows collected by a pass *)

Lemma loop_body_rows_ok (eol : bool) (today : date)
    (data : catalog)
    (st st' : pass_state) (v : string) :
  loop_body eol today data st v = Ok st' →
  rows_ok eol today data (all_rows st) → rows_ok eol today data (all_rows st').
Proof.
  intros Hbody Hok.
  apply loop_body_cases in Hbody
    as [[_ ->]|[(vdata & _ & _ & ->)|(vdata & bars & m' & Hv & Hvb & ->)]];
    try done.
  intros w entries label bars' Hw Hin. simpl in Hw.
  destruct (decide (v = w)) as [<-|Hne].
  - rewrite lookup_insert_eq in Hw. injection Hw as <-.
    apply elem_of_app in Hin as [Hin|Hin].
    + destruct (all_rows st !! v) as [old|] eqn:Hold; simpl in Hin.
      * by apply (Hok v old).
      * by apply elem_of_nil in Hin.
    + apply list_elem_of_singleton in Hin as [= -> ->].
      split; [done|]. by exists vdata, (max_eol st), m'.
  - rewrite lookup_insert_ne in Hw by done. by apply (Hok w entries).
Qed.

Lemma first_loop_rows_ok (eol : bool) (today : date)
    (data : catalog)
    (st st' : pass_state) (order : list string) :
  first_loop eol today data st order = Ok st' →
  rows_ok eol today data (all_rows st) → rows_ok eol today data (all_rows st').
Proof.
  revert st. induction order as [|v order IH]; intros st; simpl.
  - by intros [= <-].
  - unfold bind. destruct (loop_body eol today data st v) as [st1|] eqn:Hv; [|done].
    intros Hrest Hok. apply (IH st1 Hrest). by apply (loop_body_rows_ok _ _ _ _ _ _ Hv).
Qed.

Lemma rows_ok_empty (eol : bool) (today : date)
    (data : catalog) :
  rows_ok eol today data (all_rows initial_state).
Proof. intros v entries label bars Hv. simpl in Hv. by rewrite lookup_empty in Hv. Qed.

Lemma loop_body_other (eol : bool) (today : date)
    (data : catalog)
    (st st' : pass_state) (w v : string) :
  loop_body eol today data st w = Ok st' →
  not_processed eol today data [w] v →
  all_rows st' !! v = all_rows st !! v.
Proof.
  intros Hbody Hnot.
  apply loop_body_cases in Hbody
    as [[_ ->]|[(vdata & _ & _ & ->)|(vdata & bars & m' & Hw & Hvb & ->)]];
    try done.
  simpl. apply lookup_insert_ne. intros ->.
  apply version_bars_ok in Hvb as [Hskip _].
  destruct Hnot as [Hnot|[Hnone|(vdata' & Hv' & Hskip')]].
  - apply Hnot. by apply list_elem_of_singleton.
  - congruence.
  - congruence.
Qed.

Lemma first_loop_untouched (eol : bool) (today : date)
    (data : catalog)
    (st st' : pass_state) (order : list string) (v : string) :
  first_loop eol today data st order = Ok st' →
  not_processed eol today data order v →
  all_rows st' !! v = all_rows st !! v.
Proof.
  revert st. induction order as [|w order IH]; intros st; simpl.
  - by intros [= <-].
  - unfold bind. destruct (loop_body eol today data st w) as [st1|] eqn:Hw; [|done].
    intros Hrest Hnot.
    rewrite (IH st1 Hrest).
    + apply (loop_body_other _ _ _ _ _ _ _ Hw).
      destruct Hnot as [Hnot|Hnot]; [left|by right].
      intros ->%list_elem_of_singleton. apply Hnot. by left.
    + destruct Hnot as [Hnot|Hnot]; [left|by right].
      intros Hin. apply Hnot. by right.
Qed.

(** The loop files the bars of a processed version under its name, once. *)
Lemma first_loop_built (eol : bool) (today : date)
    (data : catalog)
    (st st' : pass_state) (order : list string) (v : string)
    (vdata : version_record) :
  first_loop eol today data st order = Ok st' →
  NoDup order → v ∈ order →
  upstream data !! v = Some vdata → skip_version eol today vdata = false →
  ∃ bars m m',
    version_bars eol today vdata m = Ok (Some (bars, m')) ∧
    all_rows st' !! v = Some (default [] (all_rows st !! v) ++ [(v, bars)]).
Proof.
  intros Hloop Hnodup Hin Hv Hskip. revert st Hloop.
  induction order as [|w order IH]; intros st; [by apply elem_of_nil in Hin|].
  simpl. unfold bind.
  destruct (loop_body eol today data st w) as [st1|] eqn:Hw; [|done].
  intros Hrest. apply NoDup_cons in Hnodup as [Hfresh Hnodup].
  destruct (decide (w = v)) as [->|Hne].
  - apply loop_body_cases in Hw
      as [[Hnone _]|[(vdata' & Hv' & Hskip' & _)|(vdata' & bars & m' & Hv' & Hvb & ->)]];
      [congruence|congruence|].
    assert (vdata' = vdata) as -> by congruence.
    exists bars, (max_eol st), m'. split; [done|].
    rewrite (first_loop_untouched _ _ _ _ _ _ v Hrest) by (by left).
    simpl. by rewrite lookup_insert_eq.
  - apply elem_of_cons in Hin as [->|Hin]; [done|].
    destruct (IH Hnodup Hin st1 Hrest) as (bars & m & m' & Hvb & Hrows).
    exists bars, m, m'. split; [done|]. rewrite Hrows.
    rewrite (loop_body_other _ _ _ _ _ w v Hw); [done|].
    left. by intros ->%list_elem_of_singleton.
Qed.

(** ** The printed rows *)

Lemma elem_of_flat_map {A B : Type} (f : A → list B) (l : list A) (y : B) :
  y ∈ flat_map f l ↔ ∃ x, x ∈ l ∧ y ∈ f x.
Proof.
  rewrite list_elem_of_In, in_flat_map. split.
  - intros (x & Hx & Hy). exists x. by rewrite !list_elem_of_In.
  - intros (x & Hx & Hy). exists x. by rewrite <- !list_elem_of_In.
Qed.

Lemma version_rows_elem (rows : gmap string (list (string * list bar)))
    (w : string) (r : row) :
  r ∈ version_rows rows w →
  ∃ entries label bars, rows !! w = Some entries ∧ (label, bars) ∈ entries ∧
                        r ∈ print_row label bars.
Proof.
  unfold version_rows. intros ([label bars] & Hin & Hr)%elem_of_flat_map.
  destruct (rows !! w) as [entries|]; simpl in Hin.
  - by exists entries, label, bars.
  - by apply elem_of_nil in Hin.
Qed.

Lemma version_rows_label (eol : bool) (today : date)
    (data : catalog)
    (rows : gmap string (list (string * list bar))) (w : string) (r : row) :
  rows_ok eol today data rows → r ∈ version_rows rows w → row_label r = w.
Proof.
  intros Hok (entries & label & bars & Hw & Hin & Hr)%version_rows_elem.
  destruct (Hok w entries label bars Hw Hin) as [-> _].
  by apply print_row_label in Hr.
Qed.

Lemma filter_all {A : Type} (P : A → Prop) `{!∀ x, Decision (P x)} (l : list A) :
  (∀ x, x ∈ l → P x) → filter P l = l.
Proof.
  induction l as [|x l IH]; intros Hall; [done|].
  rewrite filter_cons_True by (apply Hall; by left).
  f_equal. apply IH. intros y Hy. apply Hall. by right.
Qed.

Lemma filter_none {A : Type} (P : A → Prop) `{!∀ x, Decision (P x)} (l : list A) :
  (∀ x, x ∈ l → ¬ P x) → filter P l = [].
Proof.
  induction l as [|x l IH]; intros Hall; [done|].
  rewrite filter_cons_False by (apply Hall; by left).
  apply IH. intros y Hy. apply Hall. by right.
Qed.

(** The rows carrying the label [v] are those of the version [v]. *)
Lemma second_loop_filter (eol : bool) (today : date)
    (data : catalog)
    (rows : gmap string (list (string * list bar)))
    (order : list string) (v : string) :
  rows_ok eol today data rows → NoDup order →
  filter (fun r => row_label r = v) (second_loop rows order) =
  if decide (v ∈ order) then version_rows rows v else [].
Proof.
  intros Hok. unfold second_loop.
  induction order as [|w order IH]; intros Hnodup; cbn [flat_map].
  - case_decide as Hin; [by apply elem_of_nil in Hin|done].
  - apply NoDup_cons in Hnodup as [Hfresh Hnodup].
    rewrite filter_app, (IH Hnodup).
    destruct (decide (w = v)) as [->|Hne].
    + rewrite filter_all
        by (intros r Hr; by apply (version_rows_label eol today data rows)).
      repeat case_decide; try done.
      * by rewrite app_nil_r.
      * exfalso. match goal with H : v ∉ v :: _ |- _ => apply H end. by left.
    + rewrite filter_none; [simpl|].
      * repeat case_decide; try done.
        -- exfalso. match goal with H : v ∉ w :: _ |- _ => apply H end. by right.
        -- match goal with H : v ∈ w :: _ |- _ =>
             apply elem_of_cons in H as [->|?] end; done.
      * intros r Hr Hlabel.
        apply (version_rows_label eol today data rows) in Hr; [|done]. congruence.
Qed.

(** ** The versions of the catalogue *)

Lemma elem_of_all_versions (data : catalog)
    (v : string) :
  v ∈ all_versions data ↔
  ∃ source table, data !! source = Some table ∧ is_Some (table !! v).
Proof.
  unfold all_versions. rewrite elem_of_union_list. split.
  - intros (X & HX & Hv). apply list_elem_of_fmap in HX as ([source table] & -> & Hin).
    apply elem_of_map_to_list in Hin. exists source, table. split; [done|].
    by apply elem_of_dom.
  - intros (source & table & Hsrc & Hv). exists (dom table). split.
    + apply list_elem_of_fmap. exists (source, table). split; [done|].
      by apply elem_of_map_to_list.
    + by apply elem_of_dom.
Qed.

Lemma frozenset_order_NoDup (data : catalog)
    (versions : list string) :
  frozenset_order data versions → NoDup versions.
Proof. unfold frozenset_order. intros ->. apply NoDup_elements. Qed.

Lemma frozenset_order_upstream (data : catalog)
    (versions : list string) (v : string) (vdata : version_record) :
  frozenset_order data versions → upstream data !! v = Some vdata → v ∈ versions.
Proof.
  unfold frozenset_order, upstream. intros -> Hv.
  apply elem_of_elements, elem_of_all_versions.
  destruct (data !! "upstream") as [table|] eqn:Hup; simpl in Hv.
  - exists "upstream", table. split; [done|]. by exists vdata.
  - by rewrite lookup_empty in Hv.
Qed.

(** ** Bars of a completed iteration *)

Lemma base_bars_length (vdata : version_record) (a b r f : date) :
  length (base_bars vdata a b r f) =
  (length (dev_bars vdata) + 4 + length (security_bars vdata))%nat.
Proof.
  unfold base_bars. generalize (dev_bars vdata) (security_bars vdata).
  intros dev sec. rewrite !length_app. simpl. lia.
Qed.

Lemma version_bars_length (eol : bool) (today : date) (vdata : version_record)
    (m : option date) (bars : list bar) (m' : option date) :
  version_bars eol today vdata m = Ok (Some (bars, m')) → (5 ≤ length bars)%nat.
Proof.
  intros (_ & a & b & r & f & _ & _ & _ & _ & Hcase)%version_bars_ok.
  destruct (vdata !! "eol") as [e|].
  - destruct Hcase as (lb & Hlb & -> & _).
    rewrite length_app, base_bars_length. unfold security_bars. rewrite Hlb.
    simpl. lia.
  - destruct Hcase as (x & _ & -> & _).
    rewrite length_app, base_bars_length. simpl. lia.
Qed.

Lemma skip_version_no_eol (eol : bool) (today : date) (vdata : version_record) :
  vdata !! "eol" = None → skip_version eol today vdata = false.
Proof. unfold skip_version. intros ->. apply andb_false_r. Qed.

Lemma date_lt_not_le (a b : date) : date_lt a b = true → date_le b a = false.
Proof.
  unfold date_lt, date_le. rewrite (date_cmp_antisym a b).
  by destruct (date_cmp a b).
Qed.

(** Without [eol] and with [max_eol] set, the iteration either stops at a
    missing required milestone or ends with the ["future"] bar. *)
Lemma version_bars_future (eol : bool) (today : date) (vdata : version_record)
    (x : date) :
  vdata !! "eol" = None →
  (∃ k, k ∈ required_milestones ∧ vdata !! k = None ∧
        version_bars eol today vdata (Some x) = Raise (KeyError k)) ∨
  (∃ bars, version_bars eol today vdata (Some x)
           = Ok (Some (bars ++ [("future", x)], Some x))).
Proof.
  intros Heol. unfold version_bars.
  rewrite (skip_version_no_eol _ _ _ Heol), Heol. unfold getitem, bind.
  destruct (vdata !! "alpha1") eqn:Ha;
    [|left; exists "alpha1"; split_and!; [in_list|done..]].
  destruct (vdata !! "beta1") eqn:Hb;
    [|left; exists "beta1"; split_and!; [in_list|done..]].
  destruct (vdata !! "rc1") eqn:Hr;
    [|left; exists "rc1"; split_and!; [in_list|done..]].
  destruct (vdata !! "final") eqn:Hf;
    [|left; exists "final"; split_and!; [in_list|done..]].
  right. eauto.
Qed.

(** The bars of a completed iteration: the four required ones in order,
    followed by at least one more; and the entries a pass has collected. *)
Lemma five_bars_when_built (eol : bool) (today : date) :
  (∀ vdata m bars m',
     version_bars eol today vdata m = Ok (Some (bars, m')) →
     (5 ≤ length bars)%nat ∧
     (∀ label, (4 ≤ length (print_row label bars))%nat) ∧
     ∃ a b r f post,
       bars = dev_bars vdata
              ++ [(alpha_label, a); (beta_label, b); ("rc", r); ("stable", f)]
              ++ post ∧
       post ≠ [] ∧
       (vdata !! "eol" = None → ∃ x, last post = Some ("future", x)) ∧
       (is_Some (vdata !! "eol") → ∃ d, ("security", d) ∈ post)) ∧
  (∀ data order st v entries label bars,
     first_loop eol today data initial_state order = Ok st →
     all_rows st !! v = Some entries → (label, bars) ∈ entries →
     (5 ≤ length bars)%nat ∧ (4 ≤ length (print_row label bars))%nat ∧
     print_row label bars ≠ []).
Proof.
  split.
  - intros vdata m bars m' Hvb.
    pose proof (version_bars_length _ _ _ _ _ _ Hvb) as Hlen.
    split_and!; [done|intros label; rewrite print_row_length; lia|].
    apply version_bars_ok in Hvb as (_ & a & b & r & f & _ & _ & _ & _ & Hcase).
    exists a, b, r, f. unfold base_bars in Hcase.
    destruct (vdata !! "eol") as [e|].
    + destruct Hcase as (lb & Hlb & -> & _).
      exists (security_bars vdata ++ if decide (e = lb) then [] else [("eol", e)]).
      unfold security_bars. rewrite Hlb. split_and!.
      * by rewrite <- !app_assoc.
      * done.
      * done.
      * intros _. exists lb. by left.
    + destruct Hcase as (x & _ & -> & _).
      exists (security_bars vdata ++ [("future", x)]). split_and!.
      * by rewrite <- !app_assoc.
      * by destruct (security_bars vdata).
      * intros _. exists x. by rewrite last_snoc.
      * by intros [? ?].
  - intros data order st v entries label bars Hloop Hv Hin.
    pose proof (first_loop_rows_ok _ _ _ _ _ _ Hloop (rows_ok_empty _ _ _)) as Hok.
    destruct (Hok v entries label bars Hv Hin)
      as (_ & vdata & m & m' & _ & Hvb%version_bars_length).
    assert (4 ≤ length (print_row label bars))%nat as Hrows
      by (rewrite print_row_length; lia).
    split_and!; try done. intros Hnil. rewrite Hnil in Hrows. simpl in Hrows. lia.
Qed.

(** C10. An iteration returns without bars only by the skip. A record that
    is not skipped and has the four required milestones, [last-bugfix] when
    it has [eol], and [max_eol] set when it has no [eol], is processed to
    completion; every version processed to completion has at least five
    bars: the four required ones in order, followed by at least one more,
    which ends with the ["future"] bar when [eol] is absent and contains the
    ["security"] bar when [eol] is present. It therefore prints at least
    four rows, and so does every entry a pass has collected; a completed pass
    has filed exactly one such entry for every upstream version it did not
    skip. *)
Theorem processed_version_five_bars (eol : bool) (today : date) :
  (∀ vdata m,
     version_bars eol today vdata m = Ok None ↔
     skip_version eol today vdata = true) ∧
  (∀ vdata m,
     skip_version eol today vdata = false →
     (∀ k, k ∈ required_milestones → is_Some (vdata !! k)) →
     (is_Some (vdata !! "eol") → is_Some (vdata !! "last-bugfix")) →
     (vdata !! "eol" = None → is_Some m) →
     ∃ bars m',
       version_bars eol today vdata m = Ok (Some (bars, m')) ∧
       (5 ≤ length bars)%nat ∧
       (∀ label, (4 ≤ length (print_row label bars))%nat)) ∧
  (∀ vdata m bars m',
     version_bars eol today vdata m = Ok (Some (bars, m')) →
     (5 ≤ length bars)%nat ∧
     (∀ label, (4 ≤ length (print_row label bars))%nat) ∧
     ∃ a b r f post,
       bars = dev_bars vdata
              ++ [(alpha_label, a); (beta_label, b); ("rc", r); ("stable", f)]
              ++ post ∧
       post ≠ [] ∧
       (vdata !! "eol" = None → ∃ x, last post = Some ("future", x)) ∧
       (is_Some (vdata !! "eol") → ∃ d, ("security", d) ∈ post)) ∧
  (∀ data order st v entries label bars,
     first_loop eol today data initial_state order = Ok st →
     all_rows st !! v = Some entries → (label, bars) ∈ entries →
     (5 ≤ length bars)%nat ∧ (4 ≤ length (print_row label bars))%nat ∧
     print_row label bars ≠ []) ∧
  (∀ data order st v vdata,
     first_loop eol today data initial_state order = Ok st →
     NoDup order → v ∈ order →
     upstream data !! v = Some vdata → skip_version eol today vdata = false →
     ∃ bars,
       all_rows st !! v = Some [(v, bars)] ∧
       (5 ≤ length bars)%nat ∧
       version_rows (all_rows st) v = print_row v bars ∧
       (4 ≤ length (version_rows (all_rows st) v))%nat).
Proof.
  destruct (five_bars_when_built eol today) as [Hbuilt Hfiled].
  split_and!; [| |exact Hbuilt|exact Hfiled|].
  - intros vdata m. split; [apply version_bars_none|apply version_bars_skip].
  - intros vdata m Hskip Hreq Hlb Hm.
    destruct (version_bars_total eol today vdata m Hskip Hreq Hlb Hm)
      as (bars & m' & Hvb).
    exists bars, m'. split; [done|].
    destruct (Hbuilt vdata m bars m' Hvb) as (Hlen & Hrows & _). done.
  - intros data order st v vdata Hloop Hnodup Hin Hv Hskip.
    destruct (first_loop_built eol today data _ _ _ v vdata Hloop Hnodup Hin Hv Hskip)
      as (bars & m & m' & Hvb & Hrows).
    cbn [all_rows initial_state] in Hrows. rewrite lookup_empty in Hrows.
    simpl in Hrows. exists bars.
    assert (version_rows (all_rows st) v = print_row v bars) as Heq.
    { unfold version_rows. rewrite Hrows. simpl. apply app_nil_r. }
    destruct (Hbuilt vdata m bars m' Hvb) as (Hlen & Hlabel & _).
    split_and!; [done..|]. rewrite Heq. apply Hlabel.
Qed.

Lemma processed_version_five_bars_witness :
  ∃ bars m',
    version_bars false (Date 2024 6 1) rec_3_10 (Some (Date 2025 6 1))
    = Ok (Some (bars, m')) ∧
    (5 ≤ length bars)%nat ∧
    (∀ label, (4 ≤ length (print_row label bars))%nat).
Proof.
  apply (processed_version_five_bars false (Date 2024 6 1)).
  - vm_compute. reflexivity.
  - intros k Hk. unfold required_milestones in Hk.
    repeat (apply elem_of_cons in Hk as [->|Hk];
            [eexists; vm_compute; reflexivity|]).
    by apply elem_of_nil in Hk.
  - intros [e He]. vm_compute in He. discriminate.
  - intros _. by eexists.
Defined.

Example five_bars_3_10 :
  version_bars false (Date 2024 6 1) rec_3_10 (Some (Date 2025 6 1))
  = Ok (Some ([("dev", Date 2020 5 19); (alpha_label, Date 2020 10 5);
               (beta_label, Date 2021 5 3); ("rc", Date 2021 8 2);
               ("stable", Date 2021 10 4); ("future", Date 2025 6 1)],
              Some (Date 2025 6 1))).
Proof. vm_compute. reflexivity. Qed.

Example five_bars_2_7 :
  version_bars true (Date 2024 6 1) rec_2_7 None
  = Ok (Some ([(alpha_label, Date 2009 12 5); (beta_label, Date 2010 4 10);
               ("rc", Date 2010 6 5); ("stable", Date 2010 7 3);
               ("security", Date 2020 4 20)],
              Some (Date 2020 4 20))).
Proof. vm_compute. reflexivity. Qed.

(** ** The ["future"] bar *)

Lemma is_maximum_nonempty (ds : list date) (m : option date) (d : date) :
  is_maximum ds m → d ∈ ds → ∃ x, m = Some x.
Proof.
  destruct m as [x|]; [by exists x|]. simpl. intros ->.
  by intros ?%elem_of_nil.
Qed.

Lemma processed_eol_elem (eol : bool) (today : date)
    (data : catalog)
    (done : list string) (w : string) (wdata : version_record) (e : date) :
  w ∈ done → upstream data !! w = Some wdata → wdata !! "eol" = Some e →
  eol = true ∨ date_le e today = false →
  e ∈ processed_eols eol today data done.
Proof.
  intros Hw Hup He Hmode. apply list_elem_of_omap. exists w. split; [done|].
  unfold processed_eol, skip_version. rewrite Hup, He.
  destruct Hmode as [-> | ->]; [done|]. by rewrite andb_false_r.
Qed.

(** C3 (amended). A record without [eol] gets the terminal
    [("future", max_eol)] bar, and the assertion on [max_eol] cannot fail,
    once an earlier version of the pass had a record with an [eol] field and
    was processed: in the pass for [eol.html] any such earlier record will
    do, in the pass for [index.html] its [eol] date must be after today. *)
Theorem future_bar_after_processed_eol (eol : bool) (today : date)
    (data : catalog)
    (done : list string) (st : pass_state) (vdata : version_record) :
  first_loop eol today data initial_state done = Ok st →
  vdata !! "eol" = None →
  (∃ w wdata e, w ∈ done ∧ upstream data !! w = Some wdata ∧
                wdata !! "eol" = Some e ∧
                (eol = true ∨ date_le e today = false)) →
  ∃ x, max_eol st = Some x ∧
       version_bars eol today vdata (max_eol st) ≠ Raise AssertionError ∧
       (∀ bars m', version_bars eol today vdata (max_eol st) = Ok (Some (bars, m')) →
                   last bars = Some ("future", x) ∧ m' = Some x) ∧
       ((∀ k, k ∈ required_milestones → is_Some (vdata !! k)) →
        ∃ bars, version_bars eol today vdata (max_eol st)
                = Ok (Some (bars ++ [("future", x)], Some x))).
Proof.
  intros Hloop Heol (w & wdata & e & Hw & Hup & He & Hmode).
  pose proof (first_loop_maximum _ _ _ _ _ _ [] Hloop eq_refl) as Hmax.
  destruct (is_maximum_nonempty _ _ e Hmax) as [x Hx].
  { by apply (processed_eol_elem _ _ _ _ w wdata). }
  exists x. rewrite Hx. split_and!; [done| | |].
  - destruct (version_bars_future eol today vdata x Heol)
      as [(k & _ & _ & ->)|(bars & ->)]; done.
  - intros bars m' Hvb. apply version_bars_last in Hvb. rewrite Heol in Hvb.
    destruct Hvb as (y & [= <-] & -> & ->). done.
  - intros Hreq.
    destruct (version_bars_future eol today vdata x Heol)
      as [(k & Hk & Hnone & _)|Hok]; [|done].
    destruct (Hreq k Hk) as [? ?]. congruence.
Qed.

Lemma future_bar_after_processed_eol_witness :
  ∃ x, max_eol (end_state false (Date 2024 6 1) data_ex ["3.9"]) = Some x ∧
       version_bars false (Date 2024 6 1) rec_3_10
         (max_eol (end_state false (Date 2024 6 1) data_ex ["3.9"]))
       ≠ Raise AssertionError ∧
       (∀ bars m',
          version_bars false (Date 2024 6 1) rec_3_10
            (max_eol (end_state false (Date 2024 6 1) data_ex ["3.9"]))
          = Ok (Some (bars, m')) →
          last bars = Some ("future", x) ∧ m' = Some x) ∧
       ((∀ k, k ∈ required_milestones → is_Some (rec_3_10 !! k)) →
        ∃ bars, version_bars false (Date 2024 6 1) rec_3_10
                  (max_eol (end_state false (Date 2024 6 1) data_ex ["3.9"]))
                = Ok (Some (bars ++ [("future", x)], Some x))).
Proof.
  apply (future_bar_after_processed_eol false (Date 2024 6 1) data_ex ["3.9"]).
  - vm_compute. reflexivity.
  - vm_compute. reflexivity.
  - exists "3.9", rec_3_9, (Date 2025 6 1). split_and!.
    + by left.
    + vm_compute. reflexivity.
    + vm_compute. reflexivity.
    + right. vm_compute. reflexivity.
Defined.

(** The claim as written fails in the pass for [index.html]: 3.9 has an
    [eol] field and precedes 3.10, yet once that date has passed 3.9 is
    skipped and the assertion fails at 3.10. *)
Lemma future_bar_counterexample :
  sorted_versions ["3.10"; "3.9"] = Ok ["3.9"; "3.10"] ∧
  upstream data_ex !! "3.9" = Some rec_3_9 ∧
  rec_3_9 !! "eol" = Some (Date 2025 6 1) ∧
  upstream data_ex !! "3.10" = Some rec_3_10 ∧
  rec_3_10 !! "eol" = None ∧
  first_loop false (Date 2026 6 1) data_ex initial_state ["3.9"] = Ok initial_state ∧
  version_bars false (Date 2026 6 1) rec_3_10 (max_eol initial_state)
  = Raise AssertionError ∧
  generate_timeline ["3.10"; "3.9"] (Date 2026 6 1) data_ex false
  = Raise AssertionError.
Proof. vm_compute. done. Qed.

(** C8 (amended). With the records of 3.9 (all required milestones,
    [last-bugfix] 2024-01-01, [eol] 2025-06-01) and 3.10 (all required
    milestones, no [eol]), processing 3.9 then 3.10 gives 3.10 the terminal
    bar [("future", 2025-06-01)] in the pass for [eol.html], and in the pass
    for [index.html] as long as today is before 2025-06-01. *)
Theorem example_future_bar (eol : bool) (today : date)
    (data : catalog)
    (rec39 rec310 : version_record) :
  upstream data !! "3.9" = Some rec39 →
  upstream data !! "3.10" = Some rec310 →
  (∀ k, k ∈ required_milestones → is_Some (rec39 !! k) ∧ is_Some (rec310 !! k)) →
  rec39 !! "last-bugfix" = Some (Date 2024 1 1) →
  rec39 !! "eol" = Some (Date 2025 6 1) →
  rec310 !! "eol" = None →
  eol = true ∨ date_lt today (Date 2025 6 1) = true →
  ∃ st bars,
    first_loop eol today data initial_state ["3.9"; "3.10"] = Ok st ∧
    all_rows st !! "3.10" = Some [("3.10", bars)] ∧
    last bars = Some ("future", Date 2025 6 1) ∧
    max_eol st = Some (Date 2025 6 1).
Proof.
  intros H39 H310 Hreq Hlb Heol Hnone Hmode.
  assert (skip_version eol today rec39 = false) as Hskip.
  { unfold skip_version. rewrite Heol.
    destruct Hmode as [-> | ->%date_lt_not_le]; [done|apply andb_false_r]. }
  destruct (version_bars_total eol today rec39 None Hskip)
    as (bars1 & m1 & Hvb1).
  { intros k Hk. by apply Hreq. }
  { intros _. by rewrite Hlb. }
  { by rewrite Heol. }
  pose proof Hvb1 as Hcase.
  apply version_bars_ok in Hcase as (_ & a & b & r & f & _ & _ & _ & _ & Hcase).
  rewrite Heol in Hcase. destruct Hcase as (lb & _ & _ & ->).
  destruct (version_bars_future eol today rec310 (Date 2025 6 1) Hnone)
    as [(k & Hk & Hmiss & _)|(bars & Hvb2)].
  { destruct (Hreq k Hk) as [_ [? ?]]. congruence. }
  eexists _, (bars ++ [("future", Date 2025 6 1)]).
  cbn [first_loop].
  rewrite (loop_body_built eol today data initial_state _ _ _ _ H39 Hvb1).
  cbn [bind].
  rewrite (loop_body_built eol today data (PassState _ _) _ _ _ _ H310 Hvb2).
  cbn [bind].
  split_and!; [done| |apply last_snoc|done].
  cbn [all_rows initial_state].
  rewrite lookup_insert_eq, lookup_insert_ne by done.
  by rewrite lookup_empty.
Qed.

Lemma example_future_bar_witness :
  ∃ st bars,
    first_loop true (Date 2026 6 1) data_ex initial_state ["3.9"; "3.10"] = Ok st ∧
    all_rows st !! "3.10" = Some [("3.10", bars)] ∧
    last bars = Some ("future", Date 2025 6 1) ∧
    max_eol st = Some (Date 2025 6 1).
Proof.
  apply (example_future_bar true (Date 2026 6 1) data_ex rec_3_9 rec_3_10).
  - vm_compute. reflexivity.
  - vm_compute. reflexivity.
  - intros k Hk. unfold required_milestones in Hk.
    repeat (apply elem_of_cons in Hk as [->|Hk];
            [split; eexists; vm_compute; reflexivity|]).
    by apply elem_of_nil in Hk.
  - vm_compute. reflexivity.
  - vm_compute. reflexivity.
  - vm_compute. reflexivity.
  - by left.
Defined.

(** The example as written fails in the pass for [index.html] run on
    2025-06-01 or later: 3.9 is skipped and 3.10 hits the assertion. *)
Lemma example_future_bar_counterexample :
  frozenset_order data_ex ["3.9"; "3.10"] ∧
  upstream data_ex !! "3.9" = Some rec_3_9 ∧
  upstream data_ex !! "3.10" = Some rec_3_10 ∧
  rec_3_9 !! "last-bugfix" = Some (Date 2024 1 1) ∧
  rec_3_9 !! "eol" = Some (Date 2025 6 1) ∧
  rec_3_10 !! "eol" = None ∧
  first_loop false (Date 2025 6 1) data_ex initial_state ["3.9"; "3.10"]
  = Raise AssertionError ∧
  generate_timeline ["3.9"; "3.10"] (Date 2025 6 1) data_ex false
  = Raise AssertionError.
Proof.
  split; [|vm_compute; done].
  unfold frozenset_order. vm_compute. reflexivity.
Qed.

(** ** Order of the versions *)

(** C7. The versions are processed and their rows printed in ascending order
    of their keys, the tuples of integers read between the dots: "3.9"
    comes before "3.10" and "3.10" before "3.11" whatever order the set
    yields them in, although as strings "3.10" and "3.11" are below "3.9". *)
Theorem versions_in_key_order :
  (∀ versions order,
     sorted_versions versions = Ok order →
     order ≡ₚ versions ∧ StronglySorted key_le order) ∧
  (∀ versions today data eol rows,
     generate_timeline versions today data eol = Ok rows →
     ∃ order st,
       sorted_versions versions = Ok order ∧
       first_loop eol today data initial_state order = Ok st ∧
       rows = flat_map (version_rows (all_rows st)) order) ∧
  version_key "3.9" = Ok [3; 9] ∧
  version_key "3.10" = Ok [3; 10] ∧
  version_key "3.11" = Ok [3; 11] ∧
  tuple_lt [3; 9] [3; 10] = true ∧
  tuple_lt [3; 10] [3; 11] = true ∧
  Forall (fun versions => sorted_versions versions = Ok ["3.9"; "3.10"; "3.11"])
         (permutations ["3.9"; "3.10"; "3.11"]) ∧
  String.ltb "3.10" "3.9" = true ∧
  String.ltb "3.11" "3.9" = true.
Proof.
  split_and!.
  - intros versions order. apply sorted_versions_ok.
  - intros versions today data eol rows. apply generate_timeline_ok.
  - reflexivity.
  - reflexivity.
  - reflexivity.
  - reflexivity.
  - reflexivity.
  - vm_compute. repeat constructor.
  - reflexivity.
  - reflexivity.
Qed.

(** ** The [eol] bar *)

Lemma elem_of_base_bars (vdata : version_record) (a b r f : date)
    (label : string) (d : date) :
  (label, d) ∈ base_bars vdata a b r f →
  label ∈ ["dev"; alpha_label; beta_label; "rc"; "stable"; "security"].
Proof.
  unfold base_bars, dev_bars, security_bars.
  intros H. rewrite !elem_of_app in H.
  destruct (vdata !! "dev"), (vdata !! "last-bugfix");
    rewrite ?elem_of_cons, ?elem_of_nil in H;
    repeat destruct H as [H|H]; try done;
    injection H as -> _; in_list.
Qed.

(** The ["eol"] bar among the bars of a completed iteration, and the
    [KeyError] of a record with [eol] but without [last-bugfix]. *)
Lemma eol_bar_when_built (eol : bool) (today : date) (vdata : version_record)
    (m : option date) :
  (∀ bars m',
     version_bars eol today vdata m = Ok (Some (bars, m')) →
     (∀ d, ("eol", d) ∈ bars ↔
           vdata !! "eol" = Some d ∧ vdata !! "last-bugfix" ≠ Some d) ∧
     (∀ d, vdata !! "eol" = Some d → vdata !! "last-bugfix" = Some d →
           last bars = Some ("security", d))) ∧
  (is_Some (vdata !! "eol") → vdata !! "last-bugfix" = None →
   skip_version eol today vdata = false →
   (∃ k, vdata !! k = None ∧
         version_bars eol today vdata m = Raise (KeyError k)) ∧
   ((∀ k, k ∈ required_milestones → is_Some (vdata !! k)) →
    version_bars eol today vdata m = Raise (KeyError "last-bugfix"))).
Proof.
  split.
  - intros bars m' Hvb. split.
    + intros d.
      apply version_bars_ok in Hvb as (_ & a & b & r & f & _ & _ & _ & _ & Hcase).
      destruct (vdata !! "eol") as [e|].
      * destruct Hcase as (lb & Hlb & -> & _). rewrite Hlb, elem_of_app. split.
        -- intros [Hin|Hin].
           ++ apply elem_of_base_bars in Hin.
              unfold alpha_label, beta_label in Hin.
              repeat (apply elem_of_cons in Hin as [Hin|Hin]; [done|]).
              by apply elem_of_nil in Hin.
           ++ destruct (decide (e = lb)); [by apply elem_of_nil in Hin|].
              apply list_elem_of_singleton in Hin as [= ->].
              split; [done|congruence].
        -- intros [[= ->] Hne]. right.
           destruct (decide (d = lb)) as [->|]; [done|].
           by apply list_elem_of_singleton.
      * destruct Hcase as (x & _ & -> & _). rewrite elem_of_app. split.
        -- intros [Hin|Hin].
           ++ apply elem_of_base_bars in Hin.
              unfold alpha_label, beta_label in Hin.
              repeat (apply elem_of_cons in Hin as [Hin|Hin]; [done|]).
              by apply elem_of_nil in Hin.
           ++ by apply list_elem_of_singleton in Hin.
        -- by intros [? _].
    + intros d He Hlb. apply version_bars_last in Hvb. rewrite He, Hlb in Hvb.
      by rewrite decide_True in Hvb.
  - intros [e He] Hlb Hskip.
    assert (∀ a b r f,
      vdata !! "alpha1" = Some a → vdata !! "beta1" = Some b →
      vdata !! "rc1" = Some r → vdata !! "final" = Some f →
      version_bars eol today vdata m = Raise (KeyError "last-bugfix")) as Hfull.
    { intros a b r f Ha Hb Hr Hf. unfold version_bars, getitem, bind.
      by rewrite Hskip, Ha, Hb, Hr, Hf, Hlb, He. }
    split.
    + destruct (vdata !! "alpha1") as [a|] eqn:Ha;
        [|destruct (version_bars_missing eol today vdata m "alpha1")
            as (k & _ & ? & ?); [done|in_list|done|by exists k]].
      destruct (vdata !! "beta1") as [b|] eqn:Hb;
        [|destruct (version_bars_missing eol today vdata m "beta1")
            as (k & _ & ? & ?); [done|in_list|done|by exists k]].
      destruct (vdata !! "rc1") as [r|] eqn:Hr;
        [|destruct (version_bars_missing eol today vdata m "rc1")
            as (k & _ & ? & ?); [done|in_list|done|by exists k]].
      destruct (vdata !! "final") as [f|] eqn:Hf;
        [|destruct (version_bars_missing eol today vdata m "final")
            as (k & _ & ? & ?); [done|in_list|done|by exists k]].
      exists "last-bugfix". split; [done|]. by apply (Hfull a b r f).
    + intros Hreq.
      destruct (Hreq "alpha1") as [a Ha]; [in_list|].
      destruct (Hreq "beta1") as [b Hb]; [in_list|].
      destruct (Hreq "rc1") as [r Hr]; [in_list|].
      destruct (Hreq "final") as [f Hf]; [in_list|].
      by apply (Hfull a b r f).
Qed.

(** C5. A record that is not skipped and has the required milestones, [eol]
    and [last-bugfix] is processed, and its bars end with [("eol", eol)] when
    the two dates differ, and with the ["security"] bar, without any ["eol"]
    bar, when they are equal; a processed record without [eol] has no
    ["eol"] bar. In general a processed version has the bar [("eol", d)]
    exactly when [d] is its [eol] date and differs from its [last-bugfix]
    date; and a record with [eol] but without [last-bugfix] raises
    [KeyError] when the rule is evaluated (on ["last-bugfix"] itself once
    the required milestones are there). *)
Theorem eol_bar_rule (eol : bool) (today : date) (vdata : version_record)
    (m : option date) :
  (skip_version eol today vdata = false →
   (∀ k, k ∈ required_milestones → is_Some (vdata !! k)) →
   ∀ e lb,
     vdata !! "eol" = Some e → vdata !! "last-bugfix" = Some lb →
     ∃ bars m',
       version_bars eol today vdata m = Ok (Some (bars, m')) ∧
       (e ≠ lb → ("eol", e) ∈ bars ∧ last bars = Some ("eol", e)) ∧
       (e = lb → (∀ d, ("eol", d) ∉ bars) ∧ last bars = Some ("security", e))) ∧
  ((∀ k, k ∈ required_milestones → is_Some (vdata !! k)) →
   vdata !! "eol" = None →
   ∀ x, m = Some x →
     ∃ bars m',
       version_bars eol today vdata m = Ok (Some (bars, m')) ∧
       (∀ d, ("eol", d) ∉ bars) ∧ last bars = Some ("future", x)) ∧
  (∀ bars m',
     version_bars eol today vdata m = Ok (Some (bars, m')) →
     (∀ d, ("eol", d) ∈ bars ↔
           vdata !! "eol" = Some d ∧ vdata !! "last-bugfix" ≠ Some d) ∧
     (∀ d, vdata !! "eol" = Some d → vdata !! "last-bugfix" = Some d →
           last bars = Some ("security", d))) ∧
  (is_Some (vdata !! "eol") → vdata !! "last-bugfix" = None →
   skip_version eol today vdata = false →
   (∃ k, vdata !! k = None ∧
         version_bars eol today vdata m = Raise (KeyError k)) ∧
   ((∀ k, k ∈ required_milestones → is_Some (vdata !! k)) →
    version_bars eol today vdata m = Raise (KeyError "last-bugfix"))).
Proof.
  destruct (eol_bar_when_built eol today vdata m) as [Hbuilt Hmissing].
  split_and!; [| |exact Hbuilt|exact Hmissing].
  - intros Hskip Hreq e lb He Hlb.
    destruct (version_bars_total eol today vdata m Hskip Hreq)
      as (bars & m' & Hvb); [by rewrite Hlb; eauto|by rewrite He|].
    exists bars, m'. split; [done|].
    destruct (Hbuilt bars m' Hvb) as [Hiff Hsec].
    pose proof (version_bars_last _ _ _ _ _ _ Hvb) as Hlast.
    rewrite He, Hlb in Hlast. split.
    + intros Hne. split.
      * apply Hiff. rewrite Hlb. split; [done|congruence].
      * by rewrite decide_False in Hlast by congruence.
    + intros ->. split; [|by apply Hsec].
      intros d [Hd Hne]%Hiff. congruence.
  - intros Hreq He x ->.
    destruct (version_bars_total eol today vdata (Some x)) as (bars & m' & Hvb).
    + by apply skip_version_no_eol.
    + done.
    + rewrite He. by intros [? ?].
    + by eexists.
    + exists bars, m'. split; [done|].
      destruct (Hbuilt bars m' Hvb) as [Hiff _].
      pose proof (version_bars_last _ _ _ _ _ _ Hvb) as Hlast.
      rewrite He in Hlast. destruct Hlast as (y & [= <-] & _ & Hlast).
      split; [|done]. intros d [Hd _]%Hiff. congruence.
Qed.

Lemma eol_bar_rule_witness :
  (∃ bars m',
     version_bars true (Date 2024 6 1) rec_3_9 None = Ok (Some (bars, m')) ∧
     (Date 2025 6 1 ≠ Date 2024 1 1 →
      ("eol", Date 2025 6 1) ∈ bars ∧ last bars = Some ("eol", Date 2025 6 1)) ∧
     (Date 2025 6 1 = Date 2024 1 1 →
      (∀ d, ("eol", d) ∉ bars) ∧ last bars = Some ("security", Date 2025 6 1))) ∧
  (∃ bars m',
     version_bars true (Date 2024 6 1) rec_2_7 None = Ok (Some (bars, m')) ∧
     (Date 2020 4 20 ≠ Date 2020 4 20 →
      ("eol", Date 2020 4 20) ∈ bars ∧ last bars = Some ("eol", Date 2020 4 20)) ∧
     (Date 2020 4 20 = Date 2020 4 20 →
      (∀ d, ("eol", d) ∉ bars) ∧ last bars = Some ("security", Date 2020 4 20))).
Proof.
  assert (∀ vdata : version_record,
            vdata = rec_3_9 ∨ vdata = rec_2_7 →
            ∀ k, k ∈ required_milestones → is_Some (vdata !! k)) as Hreq.
  { intros vdata Hvdata k Hk. unfold required_milestones in Hk.
    repeat (apply elem_of_cons in Hk as [->|Hk];
            [destruct Hvdata as [-> | ->]; eexists; vm_compute; reflexivity|]).
    by apply elem_of_nil in Hk. }
  split.
  - apply (eol_bar_rule true (Date 2024 6 1) rec_3_9 None).
    + reflexivity.
    + apply Hreq. by left.
    + vm_compute. reflexivity.
    + vm_compute. reflexivity.
  - apply (eol_bar_rule true (Date 2024 6 1) rec_2_7 None).
    + reflexivity.
    + apply Hreq. by right.
    + vm_compute. reflexivity.
    + vm_compute. reflexivity.
Defined.

(** A record with [eol] and the required milestones but no [last-bugfix]. *)
Example eol_without_last_bugfix :
  version_bars true (Date 2024 6 1) (delete "last-bugfix" rec_3_9) None
  = Raise (KeyError "last-bugfix") ∧
  version_bars true (Date 2024 6 1) rec_3_9 None
  = Ok (Some ([("dev", Date 2019 2 4); (alpha_label, Date 2019 11 19);
               (beta_label, Date 2020 5 18); ("rc", Date 2020 8 11);
               ("stable", Date 2020 10 5); ("security", Date 2024 1 1);
               ("eol", Date 2025 6 1)],
              Some (Date 2025 6 1))).
Proof. vm_compute. done. Qed.

(** ** The skip rule *)

Lemma version_rows_single (rows : gmap string (list (string * list bar)))
    (v : string) (bars : list bar) :
  rows !! v = Some [(v, bars)] → version_rows rows v = print_row v bars.
Proof. unfold version_rows. intros ->. simpl. apply app_nil_r. Qed.

Lemma version_rows_none (rows : gmap string (list (string * list bar)))
    (v : string) :
  rows !! v = None → version_rows rows v = [].
Proof. unfold version_rows. by intros ->. Qed.

(** C4. A version whose record has an [eol] date on or before today is
    skipped by the pass for [index.html]: its iteration builds nothing and
    no printed row carries its label. The pass for [eol.html] keeps it: when
    that pass completes, the rows carrying its label are the rows of its
    bars, at least four of them. *)
Theorem retired_version_skip_rule (versions : list string) (today : date)
    (data : catalog)
    (v : string) (vdata : version_record) (e : date) :
  frozenset_order data versions →
  upstream data !! v = Some vdata →
  vdata !! "eol" = Some e → date_le e today = true →
  (∀ m, version_bars false today vdata m = Ok None) ∧
  (∀ rows, generate_timeline versions today data false = Ok rows →
           ∀ r, r ∈ rows → row_label r ≠ v) ∧
  (∀ rows, generate_timeline versions today data true = Ok rows →
           ∃ bars m m',
             version_bars true today vdata m = Ok (Some (bars, m')) ∧
             filter (fun r => row_label r = v) rows = print_row v bars ∧
             (4 ≤ length (print_row v bars))%nat).
Proof.
  intros Hset Hv He Hle.
  pose proof (skip_version_retired today vdata e He Hle) as Hskip.
  pose proof (frozenset_order_NoDup _ _ Hset) as Hnodup.
  split_and!.
  - intros m. by apply version_bars_skip.
  - intros rows (order & st & Hsort & Hloop & ->)%generate_timeline_ok r Hr Hlabel.
    pose proof (first_loop_rows_ok _ _ _ _ _ _ Hloop (rows_ok_empty _ _ _)) as Hok.
    assert (r ∈ filter (fun r => row_label r = v) (second_loop (all_rows st) order))
      as Hin by (by apply list_elem_of_filter).
    rewrite (second_loop_filter false today data) in Hin
      by eauto using sorted_versions_NoDup.
    rewrite version_rows_none in Hin.
    + destruct (decide (v ∈ order)); by apply elem_of_nil in Hin.
    + rewrite (first_loop_untouched _ _ _ _ _ _ v Hloop); [done|].
      right; right. by exists vdata.
  - intros rows (order & st & Hsort & Hloop & ->)%generate_timeline_ok.
    pose proof (first_loop_rows_ok _ _ _ _ _ _ Hloop (rows_ok_empty _ _ _)) as Hok.
    assert (v ∈ order) as Hin.
    { apply (sorted_versions_elem _ _ _ Hsort).
      by apply (frozenset_order_upstream data versions v vdata). }
    destruct (first_loop_built true today data _ _ _ v vdata Hloop)
      as (bars & m & m' & Hvb & Hrows);
      [by eapply sorted_versions_NoDup|done..|].
    exists bars, m, m'. split_and!; [done| |].
    + rewrite (second_loop_filter true today data)
        by eauto using sorted_versions_NoDup.
      rewrite decide_True by done. by apply version_rows_single.
    + rewrite print_row_length. apply version_bars_length in Hvb. lia.
Qed.

Lemma retired_version_skip_rule_witness :
  (∀ m, version_bars false (Date 2024 6 1) rec_2_7 m = Ok None) ∧
  (∀ rows,
     generate_timeline (elements (all_versions data_full)) (Date 2024 6 1)
       data_full false = Ok rows →
     ∀ r, r ∈ rows → row_label r ≠ "2.7") ∧
  (∀ rows,
     generate_timeline (elements (all_versions data_full)) (Date 2024 6 1)
       data_full true = Ok rows →
     ∃ bars m m',
       version_bars true (Date 2024 6 1) rec_2_7 m = Ok (Some (bars, m')) ∧
       filter (fun r => row_label r = "2.7") rows = print_row "2.7" bars ∧
       (4 ≤ length (print_row "2.7" bars))%nat).
Proof.
  apply (retired_version_skip_rule (elements (all_versions data_full))
           (Date 2024 6 1) data_full "2.7" rec_2_7 (Date 2020 4 20)).
  - unfold frozenset_order. reflexivity.
  - vm_compute. reflexivity.
  - vm_compute. reflexivity.
  - vm_compute. reflexivity.
Defined.

(** Both passes complete on the catalogue of the witness: the retired 2.7
    has no row in the first and four rows in the second. *)
Example skip_rule_on_catalogue :
  (row_label <$> default [] (match generate_timeline
                                     (elements (all_versions data_full))
                                     (Date 2024 6 1) data_full false
                             with Ok rows => Some rows | Raise _ => None end))
  = ["3.9"; "3.9"; "3.9"; "3.9"; "3.9"; "3.9";
     "3.10"; "3.10"; "3.10"; "3.10"; "3.10"] ∧
  (row_label <$> default [] (match generate_timeline
                                     (elements (all_versions data_full))
                                     (Date 2024 6 1) data_full true
                             with Ok rows => Some rows | Raise _ => None end))
  = ["2.7"; "2.7"; "2.7"; "2.7";
     "3.9"; "3.9"; "3.9"; "3.9"; "3.9"; "3.9";
     "3.10"; "3.10"; "3.10"; "3.10"; "3.10"].
Proof. vm_compute. done. Qed.

(** ** Missing milestones *)

Lemma loop_body_raises (eol : bool) (today : date)
    (data : catalog)
    (v : string) (vdata : version_record) (k : string) :
  upstream data !! v = Some vdata →
  skip_version eol today vdata = false →
  k ∈ required_milestones → vdata !! k = None →
  ∀ st, raises (loop_body eol today data st v).
Proof.
  intros Hv Hskip Hk Hnone st. unfold loop_body, bind. rewrite Hv.
  destruct (version_bars_missing eol today vdata (max_eol st) k)
    as (k' & _ & _ & ->); try done.
  by eexists.
Qed.

Lemma generate_timeline_raises (versions : list string) (today : date)
    (data : catalog) (eol : bool)
    (v : string) (vdata : version_record) (k : string) :
  frozenset_order data versions →
  upstream data !! v = Some vdata →
  skip_version eol today vdata = false →
  k ∈ required_milestones → vdata !! k = None →
  raises (generate_timeline versions today data eol).
Proof.
  intros Hset Hv Hskip Hk Hnone. unfold generate_timeline, bind.
  destruct (sorted_versions versions) as [order|e] eqn:Hsort; [|by exists e].
  destruct (first_loop_raises eol today data initial_state order v) as [e ->].
  - apply (sorted_versions_elem _ _ _ Hsort).
    by apply (frozenset_order_upstream data versions v vdata).
  - by apply (loop_body_raises _ _ _ _ vdata k).
  - by exists e.
Qed.

(** C6 (amended). When a version of the upstream table lacks one of
    [alpha1], [beta1], [rc1], [final], its iteration raises [KeyError] on a
    missing required key and aborts the pass, unless the pass skips the
    version (the pass for [index.html], when the record has an [eol] date on
    or before today). The pass for [eol.html] never skips, so it is aborted,
    and so is the run. *)
Theorem missing_milestone_aborts (versions : list string) (today : date)
    (data : catalog)
    (v : string) (vdata : version_record) (k : string) :
  frozenset_order data versions →
  upstream data !! v = Some vdata →
  k ∈ required_milestones → vdata !! k = None →
  (∀ eol m,
     eol = true ∨ (∀ e, vdata !! "eol" = Some e → date_le e today = false) →
     ∃ k', k' ∈ required_milestones ∧ vdata !! k' = None ∧
           version_bars eol today vdata m = Raise (KeyError k')) ∧
  (∀ eol,
     eol = true ∨ (∀ e, vdata !! "eol" = Some e → date_le e today = false) →
     raises (generate_timeline versions today data eol)) ∧
  raises (main versions today data).
Proof.
  intros Hset Hv Hk Hnone.
  assert (∀ eol,
    eol = true ∨ (∀ e, vdata !! "eol" = Some e → date_le e today = false) →
    skip_version eol today vdata = false) as Hskip.
  { intros eol [->|Hlive]; [done|]. unfold skip_version.
    destruct (vdata !! "eol") as [e|]; [|apply andb_false_r].
    rewrite (Hlive e eq_refl). apply andb_false_r. }
  split_and!.
  - intros eol m Hmode. apply (version_bars_missing _ _ _ _ k); auto.
  - intros eol Hmode. apply (generate_timeline_raises _ _ _ _ v vdata k); auto.
  - unfold main, bind.
    destruct (generate_timeline versions today data false) as [rows|e];
      [|by exists e].
    destruct (generate_timeline_raises versions today data true v vdata k)
      as [e ->]; auto.
    by exists e.
Qed.

Lemma missing_milestone_aborts_witness :
  (∀ eol m,
     eol = true ∨ (∀ e, rec_3_0 !! "eol" = Some e → date_le e (Date 2024 6 1) = false) →
     ∃ k', k' ∈ required_milestones ∧ rec_3_0 !! k' = None ∧
           version_bars eol (Date 2024 6 1) rec_3_0 m = Raise (KeyError k')) ∧
  (∀ eol,
     eol = true ∨ (∀ e, rec_3_0 !! "eol" = Some e → date_le e (Date 2024 6 1) = false) →
     raises (generate_timeline (elements (all_versions data_retired))
               (Date 2024 6 1) data_retired eol)) ∧
  raises (main (elements (all_versions data_retired)) (Date 2024 6 1) data_retired).
Proof.
  apply (missing_milestone_aborts (elements (all_versions data_retired))
           (Date 2024 6 1) data_retired "3.0" rec_3_0 "alpha1").
  - unfold frozenset_order. reflexivity.
  - vm_compute. reflexivity.
  - in_list.
  - vm_compute. reflexivity.
Defined.

(** The claim as written fails in the pass for [index.html]: the retired 3.0
    lacks [alpha1], yet its iteration raises nothing and the pass completes. *)
Lemma missing_milestone_counterexample :
  frozenset_order data_retired ["3.9"; "3.0"] ∧
  upstream data_retired !! "3.0" = Some rec_3_0 ∧
  rec_3_0 !! "alpha1" = None ∧
  version_bars false (Date 2024 6 1) rec_3_0 None = Ok None ∧
  loop_body false (Date 2024 6 1) data_retired initial_state "3.0"
  = Ok initial_state ∧
  generate_timeline ["3.9"; "3.0"] (Date 2024 6 1) data_retired false
  = Ok (print_row "3.9"
          [("dev", Date 2019 2 4); (alpha_label, Date 2019 11 19);
           (beta_label, Date 2020 5 18); ("rc", Date 2020 8 11);
           ("stable", Date 2020 10 5); ("security", Date 2024 1 1);
           ("eol", Date 2025 6 1)]).
Proof.
  split; [|vm_compute; done].
  unfold frozenset_order. vm_compute. reflexivity.
Qed.

(** C9. In the pass for [index.html], a record whose [eol] date is on or
    before today is skipped before any other key is read: its iteration
    returns without raising and leaves [max_eol] and the collected rows as
    they were, so the pass runs as if the version were not listed, whatever
    else the record lacks. The same record, when it lacks a required
    milestone, raises [KeyError] in the pass for [eol.html] and aborts it. *)
Theorem retired_version_skipped_before_lookups (today : date)
    (vdata : version_record) (e : date) :
  vdata !! "eol" = Some e → date_le e today = true →
  (∀ m, version_bars false today vdata m = Ok None) ∧
  (∀ data st v,
     upstream data !! v = Some vdata →
     loop_body false today data st v = Ok st) ∧
  (∀ data st v before after,
     upstream data !! v = Some vdata →
     first_loop false today data st (before ++ v :: after)
     = first_loop false today data st (before ++ after)) ∧
  (∀ k m,
     k ∈ required_milestones → vdata !! k = None →
     ∃ k', k' ∈ required_milestones ∧ vdata !! k' = None ∧
           version_bars true today vdata m = Raise (KeyError k')) ∧
  (∀ data versions v k,
     frozenset_order data versions → upstream data !! v = Some vdata →
     k ∈ required_milestones → vdata !! k = None →
     raises (generate_timeline versions today data true)).
Proof.
  intros He Hle.
  pose proof (skip_version_retired today vdata e He Hle) as Hskip.
  split_and!.
  - intros m. by apply version_bars_skip.
  - intros data st v Hv. by apply (loop_body_skipped _ _ _ _ _ vdata).
  - intros data st v before after Hv.
    rewrite !first_loop_app. unfold bind.
    destruct (first_loop false today data st before) as [st'|]; [|done].
    cbn [first_loop]. by rewrite (loop_body_skipped _ _ _ _ _ vdata Hv Hskip).
  - intros k m Hk Hnone. by apply (version_bars_missing _ _ _ _ k).
  - intros data versions v k Hset Hv Hk Hnone.
    by apply (generate_timeline_raises _ _ _ _ v vdata k).
Qed.

Lemma retired_version_skipped_before_lookups_witness :
  (∀ m, version_bars false (Date 2024 6 1) rec_3_0 m = Ok None) ∧
  (∀ data st v,
     upstream data !! v = Some rec_3_0 →
     loop_body false (Date 2024 6 1) data st v = Ok st) ∧
  (∀ data st v before after,
     upstream data !! v = Some rec_3_0 →
     first_loop false (Date 2024 6 1) data st (before ++ v :: after)
     = first_loop false (Date 2024 6 1) data st (before ++ after)) ∧
  (∀ k m,
     k ∈ required_milestones → rec_3_0 !! k = None →
     ∃ k', k' ∈ required_milestones ∧ rec_3_0 !! k' = None ∧
           version_bars true (Date 2024 6 1) rec_3_0 m = Raise (KeyError k')) ∧
  (∀ data versions v k,
     frozenset_order data versions → upstream data !! v = Some rec_3_0 →
     k ∈ required_milestones → rec_3_0 !! k = None →
     raises (generate_timeline versions (Date 2024 6 1) data true)).
Proof.
  apply (retired_version_skipped_before_lookups (Date 2024 6 1) rec_3_0
           (Date 2009 6 27)).
  - vm_compute. reflexivity.
  - vm_compute. reflexivity.
Defined.

(** The two passes on a catalogue with the retired, incomplete 3.0. *)
Example retired_incomplete_record :
  rec_3_0 !! "alpha1" = None ∧
  generate_timeline ["3.9"; "3.0"] (Date 2024 6 1) data_retired false
  = Ok (print_row "3.9"
          [("dev", Date 2019 2 4); (alpha_label, Date 2019 11 19);
           (beta_label, Date 2020 5 18); ("rc", Date 2020 8 11);
           ("stable", Date 2020 10 5); ("security", Date 2024 1 1);
           ("eol", Date 2025 6 1)]) ∧
  generate_timeline ["3.9"; "3.0"] (Date 2024 6 1) data_retired true
  = Raise (KeyError "alpha1") ∧
  main ["3.9"; "3.0"] (Date 2024 6 1) data_retired = Raise (KeyError "alpha1").
Proof. vm_compute. done. Qed.

(** * Further properties of the code *)

(** ** Rows tile the span of the bars *)

(** X5. The rows of a bar list follow one another without gap or overlap: each
    row ends where the next one starts, the first starts at the first bar
    and the last ends at the last bar. *)
Theorem print_row_tiles (label : string) (bars : list bar) :
  (∀ i r r',
     print_row label bars !! i = Some r →
     print_row label bars !! S i = Some r' →
     row_end r = row_start r') ∧
  (∀ b r, head bars = Some b → head (print_row label bars) = Some r →
          row_start r = b.2) ∧
  (∀ b r, last bars = Some b → last (print_row label bars) = Some r →
          row_end r = b.2).
Proof.
  assert (∀ i r, print_row label bars !! i = Some r →
                 ∃ b b', bars !! i = Some b ∧ bars !! S i = Some b' ∧
                         r = Row label b.1 b.2 b'.2) as Hrow.
  { intros i r Hr. pose proof (lookup_lt_Some _ _ _ Hr) as Hlt.
    rewrite print_row_length in Hlt.
    destruct (lookup_lt_is_Some_2 bars i) as [b Hb]; [lia|].
    destruct (lookup_lt_is_Some_2 bars (S i)) as [b' Hb']; [lia|].
    exists b, b'. split_and!; try done.
    rewrite (print_row_lookup label bars i b b' Hb Hb') in Hr. congruence. }
  split_and!.
  - intros i r r' (b & b' & _ & Hb' & ->)%Hrow (c & c' & Hc & _ & ->)%Hrow.
    simpl. congruence.
  - intros b r Hb Hr. rewrite head_lookup in Hb. rewrite head_lookup in Hr.
    apply Hrow in Hr as (c & c' & Hc & _ & ->). simpl. congruence.
  - intros b r Hb Hr. rewrite last_lookup in Hb. rewrite last_lookup in Hr.
    rewrite print_row_length in Hr.
    apply Hrow in Hr as (c & c' & _ & Hc' & ->). simpl.
    pose proof (lookup_lt_Some _ _ _ Hc') as Hlt.
    replace (S (pred (length bars - 1))) with (pred (length bars)) in Hc' by lia.
    congruence.
Qed.

(** ** Shape of the bars of a version *)

Ltac sublist_greedy :=
  repeat first [apply sublist_nil | apply sublist_skip | apply sublist_cons].

(** X4. The bars built for a version carry distinct labels in the fixed order
    dev, alpha, beta, rc, stable, security, eol, future; their number is four
    plus one for each of [dev] and [last-bugfix] present, plus one closing
    bar unless [eol] equals [last-bugfix]; so a version has between five and
    seven bars and prints between four and six rows. *)
Theorem version_bars_shape (eol : bool) (today : date) (vdata : version_record)
    (m : option date) (bars : list bar) (m' : option date) :
  version_bars eol today vdata m = Ok (Some (bars, m')) →
  bars.*1 `sublist_of` bar_labels ∧
  length bars = (length (dev_bars vdata) + 4 + length (security_bars vdata)
                 + closing_bars vdata)%nat ∧
  (length bars ≤ 7)%nat ∧
  (∀ label, (4 ≤ length (print_row label bars) ≤ 6)%nat).
Proof.
  intros Hvb. pose proof (version_bars_length _ _ _ _ _ _ Hvb) as Hmin.
  apply version_bars_ok in Hvb as (_ & a & b & r & f & _ & _ & _ & _ & Hcase).
  assert (bars.*1 `sublist_of` bar_labels ∧
          length bars = (length (dev_bars vdata) + 4
                         + length (security_bars vdata) + closing_bars vdata)%nat)
    as [Hsub Hlen].
  { unfold base_bars, dev_bars, security_bars, closing_bars in *.
    destruct (vdata !! "eol") as [e|].
    - destruct Hcase as (lb & -> & -> & _).
      destruct (vdata !! "dev"), (decide (e = lb)); simpl;
        (split; [unfold bar_labels; sublist_greedy|done]).
    - destruct Hcase as (x & _ & -> & _).
      destruct (vdata !! "dev"), (vdata !! "last-bugfix"); simpl;
        (split; [unfold bar_labels; sublist_greedy|done]). }
  split_and!; try done.
  - rewrite Hlen. unfold dev_bars, security_bars, closing_bars.
    destruct (vdata !! "dev"), (vdata !! "eol"), (vdata !! "last-bugfix");
      try case_decide; simpl; lia.
  - intros label. rewrite print_row_length.
    assert (length bars ≤ 7)%nat; [|lia].
    rewrite Hlen. unfold dev_bars, security_bars, closing_bars.
    destruct (vdata !! "dev"), (vdata !! "eol"), (vdata !! "last-bugfix");
      try case_decide; simpl; lia.
Qed.

Lemma version_bars_shape_witness :
  [("dev", Date 2019 2 4); (alpha_label, Date 2019 11 19);
   (beta_label, Date 2020 5 18); ("rc", Date 2020 8 11);
   ("stable", Date 2020 10 5); ("security", Date 2024 1 1);
   ("eol", Date 2025 6 1)].*1 `sublist_of` bar_labels ∧
  length [("dev", Date 2019 2 4); (alpha_label, Date 2019 11 19);
          (beta_label, Date 2020 5 18); ("rc", Date 2020 8 11);
          ("stable", Date 2020 10 5); ("security", Date 2024 1 1);
          ("eol", Date 2025 6 1)]
  = (length (dev_bars rec_3_9) + 4 + length (security_bars rec_3_9)
     + closing_bars rec_3_9)%nat ∧
  (length [("dev", Date 2019 2 4); (alpha_label, Date 2019 11 19);
           (beta_label, Date 2020 5 18); ("rc", Date 2020 8 11);
           ("stable", Date 2020 10 5); ("security", Date 2024 1 1);
           ("eol", Date 2025 6 1)] ≤ 7)%nat ∧
  (∀ label,
     (4 ≤ length (print_row label
                    [("dev", Date 2019 2 4); (alpha_label, Date 2019 11 19);
                     (beta_label, Date 2020 5 18); ("rc", Date 2020 8 11);
                     ("stable", Date 2020 10 5); ("security", Date 2024 1 1);
                     ("eol", Date 2025 6 1)]) ≤ 6)%nat).
Proof.
  apply (version_bars_shape true (Date 2024 6 1) rec_3_9 None _
           (Some (Date 2025 6 1))).
  vm_compute. reflexivity.
Defined.

(** ** What a pass prints *)

Lemma bar_before_last (base tail bars : list bar) (i : nat) (b b' : bar) :
  bars = base ++ tail → (length tail ≤ 1)%nat →
  bars !! i = Some b → bars !! S i = Some b' → b ∈ base.
Proof.
  intros -> Htail Hb Hb'.
  pose proof (lookup_lt_Some _ _ _ Hb') as Hlt. rewrite length_app in Hlt.
  rewrite lookup_app_l in Hb by lia.
  by apply list_elem_of_lookup_2 in Hb.
Qed.

Lemma version_bars_row_state (eol : bool) (today : date) (vdata : version_record)
    (m : option date) (bars : list bar) (m' : option date) (label : string)
    (r : row) :
  version_bars eol today vdata m = Ok (Some (bars, m')) →
  r ∈ print_row label bars → row_state r ∈ row_states.
Proof.
  intros (_ & a & b & rc & f & _ & _ & _ & _ & Hcase)%version_bars_ok
         (i & c & c' & Hc & Hc' & ->)%print_row_elem.
  simpl. destruct c as [state d]. simpl.
  apply (elem_of_base_bars vdata a b rc f state d).
  destruct (vdata !! "eol") as [e|].
  - destruct Hcase as (lb & _ & Hbars & _).
    apply (bar_before_last _ _ _ i _ c' Hbars);
      first [done | destruct (decide (e = lb)); simpl; lia].
  - destruct Hcase as (x & _ & Hbars & _).
    apply (bar_before_last _ _ _ i _ c' Hbars); first [done | simpl; lia].
Qed.

(** X3. Every row a pass prints is labelled with a version of the upstream table
    that the pass does not skip, and its state is one of dev, alpha, beta,
    rc, stable, security: the labels "eol" and "future" only ever close the
    last row of a version and are never printed. *)
Theorem printed_rows_vocabulary (versions : list string) (today : date)
    (data : catalog) (eol : bool) (rows : list row) :
  generate_timeline versions today data eol = Ok rows →
  ∀ r, r ∈ rows →
    row_state r ∈ row_states ∧ row_state r ≠ "eol" ∧ row_state r ≠ "future" ∧
    row_label r ∈ versions ∧
    ∃ vdata, upstream data !! row_label r = Some vdata ∧
             skip_version eol today vdata = false.
Proof.
  intros (order & st & Hsort & Hloop & ->)%generate_timeline_ok r Hr.
  pose proof (first_loop_rows_ok _ _ _ _ _ _ Hloop (rows_ok_empty _ _ _)) as Hok.
  unfold second_loop in Hr. apply elem_of_flat_map in Hr as (w & Hw & Hr).
  apply version_rows_elem in Hr as (entries & label & bars & Hrows & Hin & Hr).
  destruct (Hok w entries label bars Hrows Hin) as (-> & vdata & m & m' & Hv & Hvb).
  pose proof (version_bars_row_state _ _ _ _ _ _ _ _ Hvb Hr) as Hstate.
  rewrite (print_row_label _ _ _ Hr).
  split_and!; try done.
  - intros Heq. rewrite Heq in Hstate. unfold row_states, alpha_label, beta_label in Hstate.
    repeat (apply elem_of_cons in Hstate as [Hstate|Hstate]; [done|]).
    by apply elem_of_nil in Hstate.
  - intros Heq. rewrite Heq in Hstate. unfold row_states, alpha_label, beta_label in Hstate.
    repeat (apply elem_of_cons in Hstate as [Hstate|Hstate]; [done|]).
    by apply elem_of_nil in Hstate.
  - by apply (sorted_versions_elem _ _ _ Hsort).
  - exists vdata. split; [done|]. by apply version_bars_ok in Hvb as [? _].
Qed.

Lemma printed_rows_vocabulary_witness :
  row_state (Row "3.9" "security" (Date 2024 1 1) (Date 2025 6 1)) ∈ row_states ∧
  row_state (Row "3.9" "security" (Date 2024 1 1) (Date 2025 6 1)) ≠ "eol" ∧
  row_state (Row "3.9" "security" (Date 2024 1 1) (Date 2025 6 1)) ≠ "future" ∧
  row_label (Row "3.9" "security" (Date 2024 1 1) (Date 2025 6 1))
  ∈ ["3.9"; "3.0"] ∧
  ∃ vdata,
    upstream data_retired
    !! row_label (Row "3.9" "security" (Date 2024 1 1) (Date 2025 6 1))
    = Some vdata ∧
    skip_version false (Date 2024 6 1) vdata = false.
Proof.
  apply (printed_rows_vocabulary ["3.9"; "3.0"] (Date 2024 6 1) data_retired false
           (rows_of (generate_timeline ["3.9"; "3.0"] (Date 2024 6 1)
                       data_retired false))).
  - vm_compute. reflexivity.
  - apply list_elem_of_In. vm_compute. auto 10.
Defined.

(** ** The running maximum never goes back *)

Lemma loop_body_max_eol_mono (eol : bool) (today : date) (data : catalog)
    (st st' : pass_state) (v : string) (x : date) :
  loop_body eol today data st v = Ok st' → max_eol st = Some x →
  ∃ y, max_eol st' = Some y ∧ date_le x y = true.
Proof.
  intros Hbody Hx.
  apply loop_body_cases in Hbody
    as [[_ ->]|[(vdata & _ & _ & ->)|(vdata & bars & m' & _ & Hvb & ->)]].
  - exists x. split; [done|apply date_le_refl].
  - exists x. split; [done|apply date_le_refl].
  - apply version_bars_ok in Hvb as (_ & a & b & r & f & _ & _ & _ & _ & Hcase).
    rewrite Hx in Hcase. simpl. destruct (vdata !! "eol") as [e|].
    + destruct Hcase as (lb & _ & _ & ->). eexists. split; [done|].
      apply py_max_ge_l.
    + destruct Hcase as (y & [= <-] & _ & ->). exists x.
      split; [done|apply date_le_refl].
Qed.

(** X6. Once [max_eol] is set, the rest of the pass never unsets it and never
    lowers it. *)
Theorem max_eol_never_decreases (eol : bool) (today : date) (data : catalog)
    (st st' : pass_state) (order : list string) (x : date) :
  first_loop eol today data st order = Ok st' → max_eol st = Some x →
  ∃ y, max_eol st' = Some y ∧ date_le x y = true.
Proof.
  revert st x. induction order as [|v order IH]; intros st x; simpl.
  - intros [= <-] Hx. exists x. split; [done|apply date_le_refl].
  - unfold bind. destruct (loop_body eol today data st v) as [st1|] eqn:Hv; [|done].
    intros Hrest Hx.
    destruct (loop_body_max_eol_mono _ _ _ _ _ _ _ Hv Hx) as (y & Hy & Hxy).
    destruct (IH st1 y Hrest Hy) as (z & Hz & Hyz).
    exists z. split; [done|]. by apply (date_le_trans x y z).
Qed.

Lemma max_eol_never_decreases_witness :
  ∃ y, max_eol (end_state true (Date 2024 6 1) data_full ["2.7"; "3.9"; "3.10"])
       = Some y ∧
       date_le (Date 2020 4 20) y = true.
Proof.
  apply (max_eol_never_decreases true (Date 2024 6 1) data_full
           (end_state true (Date 2024 6 1) data_full ["2.7"])
           _ ["3.9"; "3.10"]).
  - vm_compute. reflexivity.
  - vm_compute. reflexivity.
Defined.

(** ** Version strings that are not numbers *)

Lemma mapM_raise_inv {A B : Type} (f : A → result B) (l : list A) (e : exn) :
  mapM f l = Raise e → ∃ x, x ∈ l ∧ f x = Raise e.
Proof.
  induction l as [|x l IH]; simpl; [done|]. unfold bind.
  destruct (f x) as [y|e'] eqn:Hx.
  - destruct (mapM f l) as [ys|e'']; [done|].
    intros [= <-]. destruct IH as (z & Hz & Hfz); [done|].
    exists z. split; [by right|done].
  - intros [= <-]. exists x. split; [by left|done].
Qed.

Lemma py_int_raise (x : string) (e : exn) : py_int x = Raise e → e = ValueError.
Proof.
  unfold py_int. destruct (strip x) as [|c rest]; simpl.
  - intros [= <-]. done.
  - destruct (Ascii.eqb c "-"), (Ascii.eqb c "+");
      match goal with |- context [int_magnitude ?s] => destruct (int_magnitude s) end;
      try done; by intros [= <-].
Qed.

Lemma version_key_raise (version : string) (e : exn) :
  version_key version = Raise e → e = ValueError.
Proof.
  unfold version_key. intros (x & _ & Hx)%mapM_raise_inv.
  by apply py_int_raise in Hx.
Qed.

Lemma sorted_versions_raise (versions : list string) (e : exn) :
  sorted_versions versions = Raise e →
  e = ValueError ∧ ∃ v, v ∈ versions ∧ version_key v = Raise ValueError.
Proof.
  unfold sorted_versions, bind.
  destruct (mapM decorate versions) as [keyed|e'] eqn:Hk; [done|].
  intros [= <-]. apply mapM_raise_inv in Hk as (v & Hv & Hdec).
  unfold decorate, bind in Hdec.
  destruct (version_key v) as [k|e''] eqn:Hkey; [done|].
  injection Hdec as <-. pose proof (version_key_raise _ _ Hkey) as ->.
  split; [done|]. by exists v.
Qed.

Lemma sorted_versions_bad_key (versions : list string) (v : string) (e : exn) :
  v ∈ versions → version_key v = Raise e →
  sorted_versions versions = Raise ValueError.
Proof.
  intros Hv Hkey.
  destruct (mapM_raise decorate versions v Hv) as [e' He'].
  { unfold decorate, bind. rewrite Hkey. by eexists. }
  assert (sorted_versions versions = Raise e') as Hs.
  { unfold sorted_versions, bind. by rewrite He'. }
  rewrite Hs. by apply sorted_versions_raise in Hs as [-> _].
Qed.

(** X8. An ASCII version string with a part that [int] rejects makes [sorted]
    raise [ValueError] before any record is read: both passes and the run
    raise it, whichever table lists the version and whatever the other
    versions and records are. *)
Theorem malformed_version_aborts (versions : list string) (today : date)
    (data : catalog) (v : string) (e : exn) :
  v ∈ versions → is_ascii v = true → version_key v = Raise e →
  e = ValueError ∧
  (∀ eol, generate_timeline versions today data eol = Raise ValueError) ∧
  main versions today data = Raise ValueError.
Proof.
  intros Hv _ Hkey.
  pose proof (sorted_versions_bad_key versions v e Hv Hkey) as Hsort.
  assert (∀ eol, generate_timeline versions today data eol = Raise ValueError)
    as Hpass.
  { intros eol. unfold generate_timeline, bind. by rewrite Hsort. }
  split_and!; [by apply version_key_raise in Hkey|done|].
  unfold main, bind. by rewrite Hpass.
Qed.

Lemma malformed_version_aborts_witness :
  ValueError = ValueError ∧
  (∀ eol, generate_timeline ["3.9"; "3.x"; "3.10"] (Date 2024 6 1) data_ex eol
          = Raise ValueError) ∧
  main ["3.9"; "3.x"; "3.10"] (Date 2024 6 1) data_ex = Raise ValueError.
Proof.
  apply (malformed_version_aborts ["3.9"; "3.x"; "3.10"] (Date 2024 6 1)
           data_ex "3.x" ValueError).
  - in_list.
  - reflexivity.
  - vm_compute. reflexivity.
Defined.

(** ** Passes that process nothing *)

Lemma first_loop_idle (eol : bool) (today : date) (data : catalog)
    (st : pass_state) (order : list string) :
  (∀ v vdata, v ∈ order → upstream data !! v = Some vdata →
              skip_version eol today vdata = true) →
  first_loop eol today data st order = Ok st.
Proof.
  induction order as [|v order IH]; intros Hidle; simpl; [done|].
  assert (loop_body eol today data st v = Ok st) as ->.
  { destruct (upstream data !! v) as [vdata|] eqn:Hv.
    - apply (loop_body_skipped _ _ _ _ _ vdata Hv).
      apply (Hidle v); [by left|done].
    - unfold loop_body. by rewrite Hv. }
  simpl. apply IH. intros w wdata Hw. apply Hidle. by right.
Qed.

Lemma second_loop_empty (order : list string) : second_loop ∅ order = [].
Proof.
  unfold second_loop. induction order as [|v order IH]; simpl; [done|].
  rewrite IH. unfold version_rows. by rewrite lookup_empty.
Qed.

(** X9. When the version strings sort and every upstream record is skipped,
    or the input has no "upstream" table, the pass completes and prints no
    row: so does the pass for [index.html] once every release is retired. *)
Theorem idle_pass_prints_nothing (versions order : list string) (today : date)
    (data : catalog) (eol : bool) :
  sorted_versions versions = Ok order →
  data !! "upstream" = None ∨
  (∀ v vdata, v ∈ versions → upstream data !! v = Some vdata →
              skip_version eol today vdata = true) →
  generate_timeline versions today data eol = Ok [].
Proof.
  intros Hsort Hidle.
  assert (∀ v vdata, v ∈ versions → upstream data !! v = Some vdata →
                     skip_version eol today vdata = true) as Hskip.
  { destruct Hidle as [Hnone|Hskip]; [|done]. intros v vdata _ Hv.
    unfold upstream in Hv. rewrite Hnone in Hv. simpl in Hv.
    by rewrite lookup_empty in Hv. }
  unfold generate_timeline, bind. rewrite Hsort.
  rewrite first_loop_idle.
  - simpl. by rewrite second_loop_empty.
  - intros v vdata Hv. apply Hskip. by apply (sorted_versions_elem _ _ _ Hsort).
Qed.

Lemma idle_pass_prints_nothing_witness :
  frozenset_order data_past (elements (all_versions data_past)) ∧
  generate_timeline (elements (all_versions data_past)) (Date 2026 6 1)
    data_past false = Ok [] ∧
  frozenset_order data_no_upstream (elements (all_versions data_no_upstream)) ∧
  generate_timeline (elements (all_versions data_no_upstream)) (Date 2026 6 1)
    data_no_upstream true = Ok [].
Proof.
  split_and!.
  - unfold frozenset_order. reflexivity.
  - apply (idle_pass_prints_nothing (elements (all_versions data_past))
             ["2.7"; "3.9"]).
    + vm_compute. reflexivity.
    + right. intros v vdata Hv Hup.
      apply list_elem_of_In in Hv. vm_compute in Hv.
      destruct Hv as [<-|[<-|[]]]; vm_compute in Hup;
        injection Hup as <-; vm_compute; reflexivity.
  - unfold frozenset_order. reflexivity.
  - apply (idle_pass_prints_nothing (elements (all_versions data_no_upstream))
             ["3.11"]).
    + vm_compute. reflexivity.
    + left. vm_compute. reflexivity.
Defined.

Example idle_passes :
  elements (all_versions data_past) = ["3.9"; "2.7"] ∧
  generate_timeline ["3.9"; "2.7"] (Date 2026 6 1) data_past false = Ok [] ∧
  elements (all_versions data_no_upstream) = ["3.11"] ∧
  generate_timeline ["3.11"] (Date 2026 6 1) data_no_upstream true = Ok [].
Proof. vm_compute. done. Qed.

(** ** When the assertion fails *)

Lemma is_maximum_nil (m : option date) : is_maximum [] m → m = None.
Proof. destruct m as [x|]; [|done]. by intros [?%elem_of_nil _]. Qed.

Lemma version_bars_assert (eol : bool) (today : date) (vdata : version_record) :
  vdata !! "eol" = None →
  (∀ k, k ∈ required_milestones → is_Some (vdata !! k)) →
  version_bars eol today vdata None = Raise AssertionError.
Proof.
  intros Heol Hreq. unfold version_bars.
  rewrite (skip_version_no_eol _ _ _ Heol), Heol.
  destruct (Hreq "alpha1") as [a Ha]; [in_list|].
  destruct (Hreq "beta1") as [b Hb]; [in_list|].
  destruct (Hreq "rc1") as [r Hr]; [in_list|].
  destruct (Hreq "final") as [f Hf]; [in_list|].
  unfold getitem, bind. by rewrite Ha, Hb, Hr, Hf.
Qed.

(** X7. A record without [eol] that has its required milestones fails the
    assertion, and aborts the pass with [AssertionError], when no version
    processed before it in the pass had an [eol] field. *)
Theorem assertion_without_eol_history (eol : bool) (today : date)
    (data : catalog) (done rest : list string) (st : pass_state)
    (v : string) (vdata : version_record) :
  first_loop eol today data initial_state done = Ok st →
  processed_eols eol today data done = [] →
  upstream data !! v = Some vdata → vdata !! "eol" = None →
  (∀ k, k ∈ required_milestones → is_Some (vdata !! k)) →
  max_eol st = None ∧
  first_loop eol today data initial_state (done ++ v :: rest)
  = Raise AssertionError ∧
  (∀ versions,
     sorted_versions versions = Ok (done ++ v :: rest) →
     generate_timeline versions today data eol = Raise AssertionError).
Proof.
  intros Hloop Hnone Hv Heol Hreq.
  pose proof (first_loop_maximum _ _ _ _ _ _ [] Hloop eq_refl) as Hmax.
  simpl in Hmax. rewrite Hnone in Hmax. apply is_maximum_nil in Hmax.
  assert (first_loop eol today data initial_state (done ++ v :: rest)
          = Raise AssertionError) as Hfail.
  { rewrite first_loop_app, Hloop. cbn [bind first_loop].
    unfold loop_body. rewrite Hv, Hmax.
    by rewrite (version_bars_assert eol today vdata Heol Hreq). }
  split_and!; [done..|].
  intros versions Hsort. unfold generate_timeline, bind. by rewrite Hsort, Hfail.
Qed.

Lemma assertion_without_eol_history_witness :
  max_eol (end_state false (Date 2026 6 1) data_full ["2.7"; "3.9"]) = None ∧
  first_loop false (Date 2026 6 1) data_full initial_state
    (["2.7"; "3.9"] ++ "3.10" :: ["3.11"])
  = Raise AssertionError ∧
  (∀ versions,
     sorted_versions versions = Ok (["2.7"; "3.9"] ++ "3.10" :: ["3.11"]) →
     generate_timeline versions (Date 2026 6 1) data_full false
     = Raise AssertionError).
Proof.
  apply (assertion_without_eol_history false (Date 2026 6 1) data_full
           ["2.7"; "3.9"] ["3.11"] _ "3.10" rec_3_10).
  - vm_compute. reflexivity.
  - vm_compute. reflexivity.
  - vm_compute. reflexivity.
  - vm_compute. reflexivity.
  - intros k Hk. unfold required_milestones in Hk.
    repeat (apply elem_of_cons in Hk as [->|Hk];
            [eexists; vm_compute; reflexivity|]).
    by apply elem_of_nil in Hk.
Defined.

(** ** The page with retired releases and the date *)

Lemma version_bars_eol_mode_today (today today' : date) (vdata : version_record)
    (m : option date) :
  version_bars true today vdata m = version_bars true today' vdata m.
Proof. reflexivity. Qed.

Lemma first_loop_eol_mode_today (today today' : date) (data : catalog)
    (st : pass_state) (order : list string) :
  first_loop true today data st order = first_loop true today' data st order.
Proof.
  revert st. induction order as [|v order IH]; intros st; simpl; [done|].
  assert (loop_body true today data st v = loop_body true today' data st v) as ->
    by reflexivity.
  unfold bind. destruct (loop_body true today' data st v); [apply IH|done].
Qed.

(** X11. The pass for [eol.html] does not depend on the day it is run: it reads
    today's date only in the skip rule, which that pass never applies. *)
Theorem eol_page_ignores_today (versions : list string) (today today' : date)
    (data : catalog) :
  generate_timeline versions today data true
  = generate_timeline versions today' data true.
Proof.
  unfold generate_timeline, bind.
  destruct (sorted_versions versions) as [order|]; [|done].
  by rewrite (first_loop_eol_mode_today today today').
Qed.

(** ** When a pass runs to its end *)

Lemma is_maximum_some_nonempty (ds : list date) (x : date) :
  is_maximum ds (Some x) → ds ≠ [].
Proof. intros [Hx _] ->. by apply elem_of_nil in Hx. Qed.

Lemma first_loop_runs (eol : bool) (today : date) (data : catalog)
    (order : list string) :
  pass_runs eol today data order →
  ∀ done rest, order = done ++ rest →
  ∃ st, first_loop eol today data initial_state done = Ok st.
Proof.
  intros [Hcomplete Hhistory] done.
  induction done as [|v done IH] using rev_ind; intros rest Horder.
  - by exists initial_state.
  - rewrite <- app_assoc in Horder. simpl in Horder.
    destruct (IH (v :: rest) Horder) as [st Hst].
    rewrite first_loop_app, Hst. cbn [bind first_loop].
    assert (∃ st', loop_body eol today data st v = Ok st') as [st' ->];
      [|by exists st'].
    destruct (upstream data !! v) as [vdata|] eqn:Hv;
      [|exists st; unfold loop_body; by rewrite Hv].
    destruct (skip_version eol today vdata) eqn:Hskip;
      [exists st; by apply (loop_body_skipped _ _ _ _ _ vdata)|].
    destruct (Hcomplete v vdata) as [Hreq Hlb]; try done.
    { rewrite Horder. apply elem_of_app. right. by left. }
    destruct (version_bars_total eol today vdata (max_eol st) Hskip Hreq Hlb)
      as (bars & m' & Hvb).
    { intros Heol.
      pose proof (first_loop_maximum _ _ _ _ _ _ [] Hst eq_refl) as Hmax.
      simpl in Hmax. destruct (max_eol st) as [x|]; [by exists x|].
      simpl in Hmax. by destruct (Hhistory done v rest vdata). }
    eexists. by apply (loop_body_built _ _ _ _ _ vdata bars m').
Qed.

(** X2. A pass over versions that sort runs to its end exactly when every record
    it processes has the four required milestones, and [last-bugfix] when it
    has [eol], and every processed record without [eol] comes after a
    processed record with [eol]. *)
Theorem pass_completes_iff (versions order : list string) (today : date)
    (data : catalog) (eol : bool) :
  sorted_versions versions = Ok order →
  (∃ rows, generate_timeline versions today data eol = Ok rows) ↔
  pass_runs eol today data order.
Proof.
  intros Hsort. split.
  - intros [rows (order' & st & Hsort' & Hloop & _)%generate_timeline_ok].
    assert (order' = order) as -> by congruence.
    assert (∀ done v rest vdata,
      order = done ++ v :: rest → upstream data !! v = Some vdata →
      skip_version eol today vdata = false →
      ∃ st1 bars m', first_loop eol today data initial_state done = Ok st1 ∧
        version_bars eol today vdata (max_eol st1) = Ok (Some (bars, m')))
      as Hstep.
    { intros done v rest vdata Horder Hv Hskip.
      rewrite Horder, first_loop_app in Hloop. unfold bind in Hloop.
      destruct (first_loop eol today data initial_state done) as [st1|]; [|done].
      cbn [first_loop] in Hloop. unfold bind in Hloop.
      destruct (loop_body eol today data st1 v) as [st2|] eqn:Hbody; [|done].
      apply loop_body_cases in Hbody
        as [[? _]|[(vdata' & ? & ? & _)|(vdata' & bars & m' & Hv' & Hvb & _)]];
        [congruence|congruence|].
      assert (vdata' = vdata) as -> by congruence. by exists st1, bars, m'. }
    split.
    + intros v vdata [done [rest Horder]]%list_elem_of_split Hv Hskip.
      destruct (Hstep done v rest vdata Horder Hv Hskip)
        as (st1 & bars & m' & _ & Hvb).
      apply version_bars_ok in Hvb as (_ & a & b & r & f & Ha & Hb & Hr & Hf & Hcase).
      split.
      * intros k Hk. unfold required_milestones in Hk.
        repeat (apply elem_of_cons in Hk as [->|Hk]; [by eexists|]).
        by apply elem_of_nil in Hk.
      * intros [e He]. rewrite He in Hcase.
        destruct Hcase as (lb & Hlb & _). by exists lb.
    + intros done v rest vdata Horder Hv Heol.
      destruct (Hstep done v rest vdata Horder Hv (skip_version_no_eol _ _ _ Heol))
        as (st1 & bars & m' & Hst1 & Hvb).
      apply version_bars_ok in Hvb as (_ & a & b & r & f & _ & _ & _ & _ & Hcase).
      rewrite Heol in Hcase. destruct Hcase as (x & Hx & _).
      pose proof (first_loop_maximum _ _ _ _ _ _ [] Hst1 eq_refl) as Hmax.
      simpl in Hmax. rewrite Hx in Hmax.
      by apply is_maximum_some_nonempty in Hmax.
  - intros Hruns.
    destruct (first_loop_runs eol today data order Hruns order [])
      as [st Hst]; [by rewrite app_nil_r|].
    unfold generate_timeline, bind. rewrite Hsort, Hst. by eexists.
Qed.

Lemma pass_completes_iff_witness :
  (∃ rows, generate_timeline ["3.10"; "3.9"; "2.7"; "3.11"] (Date 2024 6 1)
             data_full false = Ok rows) ↔
  pass_runs false (Date 2024 6 1) data_full ["2.7"; "3.9"; "3.10"; "3.11"].
Proof.
  apply (pass_completes_iff ["3.10"; "3.9"; "2.7"; "3.11"]).
  vm_compute. reflexivity.
Defined.

(** ** The two pages of a run *)

Lemma date_not_le_lt (a b : date) : date_le a b = false → date_lt b a = true.
Proof.
  unfold date_le, date_lt. rewrite (date_cmp_antisym a b).
  by destruct (date_cmp a b).
Qed.

Lemma date_le_lt_trans (a b c : date) :
  date_le a b = true → date_lt b c = true → date_lt a c = true.
Proof.
  unfold date_le, date_lt.
  destruct (date_cmp a b) eqn:Hab; try done; intros _;
    destruct (date_cmp b c) eqn:Hbc; try done; intros _.
  - apply date_cmp_eq in Hab as ->. by rewrite Hbc.
  - by rewrite (date_cmp_lt_trans a b c).
Qed.

Lemma date_lt_gt (a b : date) : date_lt a b = true → date_gt b a = true.
Proof.
  unfold date_lt, date_gt. rewrite (date_cmp_antisym a b).
  by destruct (date_cmp a b).
Qed.

Lemma date_lt_gt_false (a b : date) : date_lt a b = true → date_gt a b = false.
Proof. unfold date_lt, date_gt. by destruct (date_cmp a b). Qed.

Lemma py_max_past_live (x e today : date) :
  date_le e today = true → date_lt today x = true → py_max x e = x.
Proof.
  intros He Hx. unfold py_max.
  by rewrite (date_lt_gt_false e x (date_le_lt_trans e today x He Hx)).
Qed.

Lemma py_max_live_past (y e today : date) :
  date_le y today = true → date_lt today e = true → py_max y e = e.
Proof.
  intros Hy He. unfold py_max.
  by rewrite (date_lt_gt y e (date_le_lt_trans y today e Hy He)).
Qed.

Lemma py_max_past (y e today : date) :
  date_le y today = true → date_le e today = true →
  date_le (py_max y e) today = true.
Proof. intros Hy He. by destruct (py_max_cases y e) as [-> | ->]. Qed.

Lemma py_max_live (x e today : date) :
  date_lt today e = true → date_lt today (py_max x e) = true.
Proof.
  intros He. unfold py_max. destruct (date_gt e x) eqn:Hgt; [done|].
  apply date_gt_false_le in Hgt.
  unfold date_lt, date_le in *.
  destruct (date_cmp today e) eqn:H1; try done.
  destruct (date_cmp e x) eqn:H2; try done.
  - apply date_cmp_eq in H2 as <-. by rewrite H1.
  - by rewrite (date_cmp_lt_trans today e x).
Qed.

Lemma version_bars_mode (today : date) (vdata : version_record) (m : option date) :
  skip_version false today vdata = false →
  version_bars false today vdata m = version_bars true today vdata m.
Proof. intros Hskip. unfold version_bars. by rewrite Hskip. Qed.

Lemma is_retired_eol (today : date) (data : catalog) (v : string)
    (vdata : version_record) :
  upstream data !! v = Some vdata →
  is_retired today data v = skip_version false today vdata.
Proof. unfold is_retired. by intros ->. Qed.

Lemma skip_version_true (today : date) (vdata : version_record) :
  skip_version false today vdata = true →
  ∃ e, vdata !! "eol" = Some e ∧ date_le e today = true.
Proof.
  unfold skip_version. destruct (vdata !! "eol") as [e|]; [|done].
  simpl. intros He. by exists e.
Qed.

Lemma skip_version_false_live (today : date) (vdata : version_record) (e : date) :
  skip_version false today vdata = false → vdata !! "eol" = Some e →
  date_lt today e = true.
Proof.
  unfold skip_version. intros Hskip He. rewrite He in Hskip. simpl in Hskip.
  by apply date_not_le_lt.
Qed.

Lemma loop_body_passes_agree (today : date) (data : catalog)
    (sf sf' st st' : pass_state) (v : string) :
  loop_body false today data sf v = Ok sf' →
  loop_body true today data st v = Ok st' →
  passes_agree today data sf st → passes_agree today data sf' st'.
Proof.
  intros Hf Ht [Hrows Hmax].
  destruct (upstream data !! v) as [vdata|] eqn:Hv.
  2:{ unfold loop_body in Hf, Ht. rewrite Hv in Hf, Ht.
      injection Hf as <-. injection Ht as <-. by split. }
  apply loop_body_cases in Ht
    as [[? _]|[(vdata' & _ & Hskip' & _)|(vdata' & bars & m' & Hv' & Hvb & ->)]];
    [congruence|done|].
  assert (vdata' = vdata) as -> by congruence. clear Hv'.
  apply version_bars_ok in Hvb
    as (_ & a & b & r & f & Ha & Hb & Hr & Hf' & Hcase).
  apply loop_body_cases in Hf
    as [[? _]|[(vdata' & Hv' & Hskip & ->)
              |(vdata' & bars0 & m0 & Hv' & Hvb0 & ->)]];
    [congruence| |]; assert (vdata' = vdata) as -> by congruence; clear Hv'.
  - (* retired: skipped by the first pass only *)
    destruct (skip_version_true _ _ Hskip) as (e & He & Hpast).
    rewrite He in Hcase. destruct Hcase as (lb & _ & _ & ->).
    split; simpl.
    + intros w. rewrite Hrows. destruct (decide (v = w)) as [<-|Hne].
      * by rewrite (is_retired_eol _ _ _ _ Hv), Hskip.
      * by rewrite lookup_insert_ne.
    + destruct Hmax as [[Heq Hlive]|(Hnone & y & Hy & Hpast')].
      * destruct (max_eol st) as [x|] eqn:Hx.
        -- left. rewrite (py_max_past_live x e today); [done|done|].
           apply Hlive. by rewrite Heq.
        -- right. split; [done|]. by exists e.
      * right. split; [done|]. rewrite Hy. eexists. split; [done|].
        by apply py_max_past.
  - (* processed by both passes *)
    apply version_bars_ok in Hvb0
      as (Hskip & a0 & b0 & r0 & f0 & Ha0 & Hb0 & Hr0 & Hf0 & Hcase0).
    assert (a0 = a) as -> by congruence. assert (b0 = b) as -> by congruence.
    assert (r0 = r) as -> by congruence. assert (f0 = f) as -> by congruence.
    specialize (Hrows v) as Hrows_v.
    rewrite (is_retired_eol _ _ _ _ Hv), Hskip in Hrows_v.
    assert (∀ bs mf mt,
      ((mf = mt ∧ ∀ x, mf = Some x → date_lt today x = true) ∨
       (mf = None ∧ ∃ y, mt = Some y ∧ date_le y today = true)) →
      passes_agree today data
        (PassState mf (<[v := default [] (all_rows sf !! v) ++ [(v, bs)]]> (all_rows sf)))
        (PassState mt (<[v := default [] (all_rows st !! v) ++ [(v, bs)]]> (all_rows st))))
      as Hbuilt.
    { intros bs mf mt Hm. split; [|done]. simpl.
      intros w. destruct (decide (v = w)) as [<-|Hne].
      - rewrite !lookup_insert_eq, (is_retired_eol _ _ _ _ Hv), Hskip.
        by rewrite Hrows_v.
      - rewrite !lookup_insert_ne by done. apply Hrows. }
    destruct (vdata !! "eol") as [e|] eqn:He.
    + destruct Hcase as (lb & Hlb & -> & ->).
      destruct Hcase0 as (lb0 & Hlb0 & -> & ->).
      assert (lb0 = lb) as -> by congruence.
      pose proof (skip_version_false_live _ _ _ Hskip He) as Hlive.
      apply Hbuilt. left.
      destruct Hmax as [[Heq Hx]|(Hnone & y & Hy & Hpast)].
      * rewrite <- Heq. split; [done|].
        intros x' [= <-]. destruct (max_eol sf); [|done]. by apply py_max_live.
      * rewrite Hnone, Hy, (py_max_live_past y e today) by done.
        split; [done|]. by intros x' [= <-].
    + destruct Hcase as (x & Hx & -> & ->).
      destruct Hcase0 as (x0 & Hx0 & -> & ->).
      destruct Hmax as [[Heq Hlive]|(Hnone & _)]; [|congruence].
      assert (x0 = x) as -> by congruence.
      apply Hbuilt. left. split; [done|].
      intros x' [= <-]. apply Hlive. done.
Qed.

Lemma first_loop_passes_agree (today : date) (data : catalog)
    (sf sf' st st' : pass_state) (order : list string) :
  first_loop false today data sf order = Ok sf' →
  first_loop true today data st order = Ok st' →
  passes_agree today data sf st → passes_agree today data sf' st'.
Proof.
  revert sf st. induction order as [|v order IH]; intros sf st; simpl.
  - by intros [= <-] [= <-].
  - unfold bind.
    destruct (loop_body false today data sf v) as [sf1|] eqn:Hf; [|done].
    destruct (loop_body true today data st v) as [st1|] eqn:Ht; [|done].
    intros Hrest Hrest' Hagree. apply (IH sf1 st1 Hrest Hrest').
    by apply (loop_body_passes_agree _ _ _ _ _ _ _ Hf Ht).
Qed.

Lemma passes_agree_initial (today : date) (data : catalog) :
  passes_agree today data initial_state initial_state.
Proof.
  split; simpl.
  - intros v. rewrite lookup_empty. by destruct (is_retired today data v).
  - left. by split.
Qed.

Lemma second_loop_passes_agree (today : date) (data : catalog)
    (sf st : pass_state) (order : list string) :
  passes_agree today data sf st → rows_ok true today data (all_rows st) →
  second_loop (all_rows sf) order =
  filter (fun r => is_retired today data (row_label r) = false)
         (second_loop (all_rows st) order).
Proof.
  intros [Hrows _] Hok. unfold second_loop.
  induction order as [|w order IH]; cbn [flat_map]; [done|].
  rewrite filter_app, <- IH. f_equal.
  unfold version_rows at 1. rewrite Hrows.
  destruct (is_retired today data w) eqn:Hret.
  - simpl. symmetry. apply filter_none. intros r Hr.
    rewrite (version_rows_label true today data _ w r Hok Hr). congruence.
  - symmetry. apply filter_all. intros r Hr.
    by rewrite (version_rows_label true today data _ w r Hok Hr).
Qed.

(** X1. When a run completes, the rows of [index.html] are the rows of
    [eol.html] without those of the retired versions, in the same order: for
    every version both pages show, the two passes build the same bars, the
    ["future"] date included. *)
Theorem index_rows_are_live_eol_rows (versions : list string) (today : date)
    (data : catalog) (index eol_page : list row) :
  main versions today data = Ok (index, eol_page) →
  index = filter (fun r => is_retired today data (row_label r) = false) eol_page.
Proof.
  unfold main, bind.
  destruct (generate_timeline versions today data false) as [rows_f|] eqn:Hf;
    [|done].
  destruct (generate_timeline versions today data true) as [rows_t|] eqn:Ht;
    [|done].
  intros [= <- <-].
  apply generate_timeline_ok in Hf as (order & sf & Hsort & Hloopf & ->).
  apply generate_timeline_ok in Ht as (order' & st & Hsort' & Hloopt & ->).
  assert (order' = order) as -> by congruence.
  apply second_loop_passes_agree.
  - apply (first_loop_passes_agree _ _ _ _ _ _ _ Hloopf Hloopt),
      passes_agree_initial.
  - apply (first_loop_rows_ok _ _ _ _ _ _ Hloopt), rows_ok_empty.
Qed.

Lemma index_rows_are_live_eol_rows_witness :
  rows_of (generate_timeline (elements (all_versions data_full)) (Date 2024 6 1)
             data_full false)
  = filter (fun r => is_retired (Date 2024 6 1) data_full (row_label r) = false)
      (rows_of (generate_timeline (elements (all_versions data_full))
                  (Date 2024 6 1) data_full true)).
Proof.
  apply (index_rows_are_live_eol_rows (elements (all_versions data_full))
           (Date 2024 6 1) data_full).
  vm_compute. reflexivity.
Defined.

Example two_pages_row_counts :
  length (rows_of (generate_timeline (elements (all_versions data_full))
                     (Date 2024 6 1) data_full false)) = 11%nat ∧
  length (rows_of (generate_timeline (elements (all_versions data_full))
                     (Date 2024 6 1) data_full true)) = 15%nat.
Proof. vm_compute. done. Qed.

(** ** The order in which the set yields the versions *)

Lemma key_le_antisym (versions : list string) (v w : string) :
  distinct_keys versions → v ∈ versions → w ∈ versions →
  key_le v w → key_le w v → v = w.
Proof.
  intros Hdistinct Hv Hw (kv & kw & Hkv & Hkw & Hle) (kw' & kv' & Hkw' & Hkv' & Hle').
  assert (kw' = kw) as -> by congruence. assert (kv' = kv) as -> by congruence.
  assert (kv = kw) as ->.
  { destruct Hle as [Hlt|]; [|done]. destruct Hle' as [Hlt'|]; [|done].
    apply tuple_lt_asym in Hlt. congruence. }
  by apply (Hdistinct v w kw).
Qed.

(** X10. When the version strings of the input are ASCII and no two of them
    have the same key, the sorted order, and with it the outcome of each pass
    and of the run, is the same for every order in which the set yields its
    elements. *)
Theorem iteration_order_irrelevant (versions versions' : list string) :
  versions ≡ₚ versions' → Forall (fun v => is_ascii v = true) versions →
  distinct_keys versions →
  sorted_versions versions = sorted_versions versions' ∧
  (∀ today data eol,
     generate_timeline versions today data eol
     = generate_timeline versions' today data eol) ∧
  (∀ today data, main versions today data = main versions' today data).
Proof.
  intros Hperm _ Hdistinct.
  assert (sorted_versions versions = sorted_versions versions') as Hsort.
  { destruct (sorted_versions versions) as [order|e] eqn:Hs;
      destruct (sorted_versions versions') as [order'|e'] eqn:Hs'.
    - f_equal.
      apply sorted_versions_ok in Hs as [Hp Hsorted].
      apply sorted_versions_ok in Hs' as [Hp' Hsorted'].
      apply (StronglySorted_unique_strong key_le); try done.
      + intros v w Hv Hw. apply (key_le_antisym versions); [done| |].
        * by rewrite <- Hp.
        * by rewrite Hperm, <- Hp'.
      + by rewrite Hp, Hp'.
    - apply sorted_versions_raise in Hs' as (_ & v & Hv & Hkey).
      rewrite <- Hperm in Hv.
      rewrite (sorted_versions_bad_key versions v _ Hv Hkey) in Hs. done.
    - apply sorted_versions_raise in Hs as (_ & v & Hv & Hkey).
      rewrite Hperm in Hv.
      rewrite (sorted_versions_bad_key versions' v _ Hv Hkey) in Hs'. done.
    - apply sorted_versions_raise in Hs as [-> _].
      by apply sorted_versions_raise in Hs' as [-> _]. }
  assert (∀ today data eol,
            generate_timeline versions today data eol
            = generate_timeline versions' today data eol) as Hpass.
  { intros today data eol. unfold generate_timeline. by rewrite Hsort. }
  split_and!; [done..|].
  intros today data. unfold main. by rewrite !Hpass.
Qed.

Lemma iteration_order_irrelevant_witness :
  sorted_versions ["3.10"; "2.7"; "3.9"] = sorted_versions ["3.9"; "3.10"; "2.7"] ∧
  (∀ today data eol,
     generate_timeline ["3.10"; "2.7"; "3.9"] today data eol
     = generate_timeline ["3.9"; "3.10"; "2.7"] today data eol) ∧
  (∀ today data,
     main ["3.10"; "2.7"; "3.9"] today data = main ["3.9"; "3.10"; "2.7"] today data).
Proof.
  apply (iteration_order_irrelevant ["3.10"; "2.7"; "3.9"] ["3.9"; "3.10"; "2.7"]).
  - etrans; [apply perm_skip, perm_swap|apply perm_swap].
  - repeat constructor.
  - intros v w k Hv Hw.
    repeat (apply elem_of_cons in Hv as [->|Hv]);
      try (by apply elem_of_nil in Hv);
      repeat (apply elem_of_cons in Hw as [->|Hw]);
      try (by apply elem_of_nil in Hw);
      try done; vm_compute; congruence.
Defined.

(** With two spellings of one key the order of the set shows: "3.9" and
    "3.09" are printed in the order the set yields them. *)
Example same_key_keeps_set_order :
  version_key "3.09" = version_key "3.9" ∧
  sorted_versions ["3.9"; "3.09"] = Ok ["3.9"; "3.09"] ∧
  sorted_versions ["3.09"; "3.9"] = Ok ["3.09"; "3.9"].
Proof. vm_compute. done. Qed.

(** ** Shape of a version key *)

Lemma split_on_length (c : ascii) (s : string) :
  length (split_on c s) = S (count_char c s).
Proof.
  induction s as [|c' rest IH]; simpl; [done|].
  destruct (Ascii.eqb c' c); simpl; [by rewrite IH|].
  destruct (split_on c rest); simpl in *; done.
Qed.

(** X12. A key has one integer for each part of the version string, one more
    than the string has dots; in particular it is never the empty tuple, and
    strings with different numbers of dots have different keys. *)
Theorem version_key_length (version : string) (k : list Z) :
  version_key version = Ok k →
  length k = S (count_char "." version) ∧ k ≠ [].
Proof.
  unfold version_key. intros H%mapM_ok.
  apply Forall2_length in H. rewrite split_on_length in H.
  split; [done|]. intros ->. done.
Qed.

Lemma version_key_length_witness :
  length [3; 10] = S (count_char "." "3.10") ∧ [3; 10] ≠ [].
Proof. apply (version_key_length "3.10"). reflexivity. Defined.

(** ** Version strings made of digit groups *)

Lemma digit_of_facts (c : ascii) :
  is_Some (digit_of c) →
  is_space c = false ∧ Ascii.eqb c "-" = false ∧ Ascii.eqb c "+" = false ∧
  Ascii.eqb c "_" = false ∧ Ascii.eqb c "." = false ∧
  ∃ d, digit_of c = Some d ∧ 0 ≤ d.
Proof.
  unfold digit_of, is_space. intros [d Hd].
  destruct (N.leb_spec 48 (N_of_ascii c)) as [Hlo|]; [|done].
  destruct (N.leb_spec (N_of_ascii c) 57) as [Hhi|]; [|done].
  simpl in Hd. injection Hd as <-.
  assert (∀ c', N_of_ascii c' < 48 ∨ 57 < N_of_ascii c' → Ascii.eqb c c' = false)%N
    as Hother.
  { intros c' Hc'. destruct (Ascii.eqb_spec c c') as [->|]; [lia|done]. }
  split_and!.
  - destruct (N.leb_spec (N_of_ascii c) 13); [lia|].
    destruct (N.eqb_spec (N_of_ascii c) 32); [lia|].
    by rewrite andb_false_r.
  - apply Hother. vm_compute. by left.
  - apply Hother. vm_compute. by left.
  - apply Hother. vm_compute. by right.
  - apply Hother. vm_compute. by left.
  - eexists. split; [done|lia].
Qed.

Lemma all_digits_cons (c : ascii) (s : string) :
  all_digits (String c s) = true ↔ is_Some (digit_of c) ∧ all_digits s = true.
Proof. simpl. rewrite andb_true_iff, bool_decide_eq_true. done. Qed.

Lemma all_digits_rev_app (s t : string) :
  all_digits s = true → all_digits t = true →
  all_digits (String.rev_app s t) = true.
Proof.
  revert t. induction s as [|c s IH]; intros t; simpl; [done|].
  rewrite andb_true_iff, bool_decide_eq_true. intros [Hc Hs] Ht.
  apply IH; [done|]. by apply all_digits_cons.
Qed.

Lemma rev_app_rev_app (s t u : string) :
  String.rev_app (String.rev_app s t) u = String.rev_app t (s ++ u)%string.
Proof.
  revert t u. induction s as [|c s IH]; intros t u; simpl; [done|].
  by rewrite IH.
Qed.

Lemma string_app_empty (s : string) : (s ++ "")%string = s.
Proof.
  induction s as [|c s IH]; [done|].
  change (String c (s ++ "")%string = String c s). by f_equal.
Qed.

Lemma lstrip_digits (s : string) : all_digits s = true → lstrip s = s.
Proof.
  destruct s as [|c s]; [done|]. intros [Hc _]%all_digits_cons. simpl.
  by destruct (digit_of_facts c Hc) as (-> & _).
Qed.

Lemma strip_digits (s : string) : all_digits s = true → strip s = s.
Proof.
  intros Hs. unfold strip. rewrite (lstrip_digits s Hs).
  rewrite lstrip_digits by (by apply all_digits_rev_app).
  unfold String.rev. by rewrite rev_app_rev_app, string_app_empty.
Qed.

Lemma scan_digits_digits (s : string) (acc n : Z) :
  all_digits s = true → 0 ≤ acc →
  ∃ v, scan_digits false acc n s = Some (v, n + Z.of_nat (String.length s)) ∧
       0 ≤ v.
Proof.
  revert acc n. induction s as [|c s IH]; intros acc n; simpl.
  - intros _ Hacc. exists acc. split; [|done]. f_equal. f_equal. lia.
  - rewrite andb_true_iff, bool_decide_eq_true. intros [Hc Hs] Hacc.
    destruct (digit_of_facts c Hc) as (_ & _ & _ & -> & _ & d & -> & Hd).
    destruct (IH (10 * acc + d) (n + 1) Hs) as (v & -> & Hv); [lia|].
    exists v. split; [|done]. f_equal. f_equal. lia.
Qed.

Lemma py_int_digit_group (s : string) :
  digit_group s → ∃ z, py_int s = Ok z ∧ 0 ≤ z.
Proof.
  intros (Hne & Hdigits & Hlen). unfold py_int. rewrite (strip_digits s Hdigits).
  destruct s as [|c s]; [done|].
  pose proof Hdigits as [Hc _]%all_digits_cons.
  destruct (digit_of_facts c Hc) as (_ & -> & -> & Hus & _).
  unfold int_magnitude. rewrite Hus.
  destruct (scan_digits_digits (String c s) 0 0 Hdigits) as (v & -> & Hv); [done|].
  rewrite Z.add_0_l. apply Z.leb_le in Hlen. rewrite Hlen. by exists v.
Qed.

Lemma count_char_digits (s : string) :
  all_digits s = true → count_char "." s = 0%nat.
Proof.
  induction s as [|c s IH]; [done|]. intros [Hc Hs]%all_digits_cons. simpl.
  destruct (digit_of_facts c Hc) as (_ & _ & _ & _ & -> & _). by apply IH.
Qed.

Lemma split_on_none (c : ascii) (s : string) :
  count_char c s = 0%nat → split_on c s = [s].
Proof.
  induction s as [|c' s IH]; simpl; [done|].
  destruct (Ascii.eqb c' c); [done|]. intros Hs. by rewrite (IH Hs).
Qed.

Lemma split_on_app (c : ascii) (s t : string) :
  count_char c s = 0%nat →
  split_on c (s ++ String c t)%string = s :: split_on c t.
Proof.
  induction s as [|c' s IH]; simpl.
  - by rewrite Ascii.eqb_refl.
  - destruct (Ascii.eqb c' c); [done|]. intros Hs. by rewrite (IH Hs).
Qed.

Lemma split_on_concat (parts : list string) :
  parts ≠ [] → Forall (fun p => count_char "." p = 0%nat) parts →
  split_on "." (String.concat "." parts) = parts.
Proof.
  induction parts as [|p parts IH]; [done|]. intros _ Hparts.
  apply Forall_cons in Hparts as [Hp Hparts].
  destruct parts as [|q parts]; [by apply split_on_none|].
  change (String.concat "." (p :: q :: parts))
    with (p ++ String "." (String.concat "." (q :: parts)))%string.
  rewrite (split_on_app _ _ _ Hp). f_equal. by apply IH.
Qed.

(** X13. A version string made of one or more groups of decimal digits joined by
    dots always has a key: one non-negative integer per group, so such a
    string never raises [ValueError]. *)
Theorem version_key_digit_groups (parts : list string) :
  parts ≠ [] → Forall digit_group parts →
  ∃ k, version_key (String.concat "." parts) = Ok k ∧
       Forall2 (fun p z => py_int p = Ok z ∧ 0 ≤ z) parts k.
Proof.
  intros Hne Hparts. unfold version_key. rewrite split_on_concat; [|done|].
  - clear Hne. induction Hparts as [|p parts Hp _ IH]; [by exists []|].
    destruct (py_int_digit_group p Hp) as (z & Hz & Hpos).
    destruct IH as (k & Hk & Hall). exists (z :: k). simpl. unfold bind.
    rewrite Hz, Hk. split; [done|]. by constructor.
  - eapply Forall_impl; [exact Hparts|].
    intros p (_ & Hdigits & _). by apply count_char_digits.
Qed.

Lemma version_key_digit_groups_witness :
  ∃ k, version_key (String.concat "." ["3"; "10"; "0"]) = Ok k ∧
       Forall2 (fun p z => py_int p = Ok z ∧ 0 ≤ z) ["3"; "10"; "0"] k.
Proof.
  apply (version_key_digit_groups ["3"; "10"; "0"]); [done|].
  repeat constructor; done.
Defined.
